(** * Seismic ray tracing through a horizontally layered medium

    A shallow embedding of [ray_tracing.py] (class [RayTracing]) and the
    properties its specification states about it.

    Modelling conventions.
    - A Python value is an element of [value]: an [int], a [float], a
      [str] or [None].  A layer is a Python list of values and the
      seismic model a list of layers, exactly as the constructor
      receives them.
    - A Python exception is a [Raise] in the [result] monad; every
      method body is translated statement by statement, in evaluation
      order, so that the exception raised first is the one returned.
    - The methods are embedded twice.  The first embedding reads
      [float] as the real numbers ([R] of the Standard Library, exact
      arithmetic); it carries the validator, the entry point, the
      labels and the counts of a trace, none of which depends on how a
      float rounds.  The second, module [Binary64], reads [float] as
      the IEEE 754 binary64 numbers, with the conversions, the rounding
      and the [OverflowError] and [ValueError] of the interpreter, and
      takes the C math library as a parameter; what is stated about
      the values a trace computes is stated there. *)

From Stdlib Require Import Reals Lra Lia ZArith List String Bool.
From Stdlib Require Floats.
Import ListNotations.

(** ** Python values and exceptions *)

Inductive value : Type :=
| VInt (z : Z)
| VFloat (r : R)
| VStr (s : string)
| VNone.

Inductive exn : Type :=
| TypeError
| IndexError
| ZeroDivisionError.

Inductive result (A : Type) : Type :=
| Ok (a : A)
| Raise (e : exn).

Arguments Ok {A} a.
Arguments Raise {A} e.

Definition bind {A B : Type} (c : result A) (k : A -> result B) : result B :=
  match c with
  | Ok a => k a
  | Raise e => Raise e
  end.

Notation "x <- c ;; k" := (bind c (fun x => k))
  (at level 61, c at next level, right associativity).

(** Comparisons of reals as booleans (the order of [R] is decidable). *)

Definition Rltb (x y : R) : bool := if Rlt_dec x y then true else false.

Definition Reqb (x y : R) : bool := if Req_dec_T x y then true else false.

(** [float(v)] as performed by arithmetic and by the [math] functions. *)
Definition to_float (v : value) : result R :=
  match v with
  | VInt z => Ok (IZR z)
  | VFloat r => Ok r
  | _ => Raise TypeError
  end.

(** [operator.index(v)], as [range] applies it to its arguments. *)
Definition as_index (v : value) : result Z :=
  match v with
  | VInt z => Ok z
  | _ => Raise TypeError
  end.

(** [a == b] *)
Definition py_eq (a b : value) : bool :=
  match a, b with
  | VInt x, VInt y => Z.eqb x y
  | VInt x, VFloat y => Reqb (IZR x) y
  | VFloat x, VInt y => Reqb x (IZR y)
  | VFloat x, VFloat y => Reqb x y
  | VStr s, VStr t => String.eqb s t
  | VNone, VNone => true
  | _, _ => false
  end.

(** [v > 0] *)
Definition py_gt0 (v : value) : result bool :=
  match v with
  | VInt z => Ok (0 <? z)%Z
  | VFloat r => Ok (Rltb 0 r)
  | _ => Raise TypeError
  end.

(** [a - b] *)
Definition py_sub (a b : value) : result value :=
  match a, b with
  | VInt x, VInt y => Ok (VInt (x - y))
  | VInt x, VFloat y => Ok (VFloat (IZR x - y))
  | VFloat x, VInt y => Ok (VFloat (x - IZR y))
  | VFloat x, VFloat y => Ok (VFloat (x - y))
  | _, _ => Raise TypeError
  end.

(** [r + v] with a float on the left *)
Definition py_float_add (r : R) (v : value) : result R :=
  y <- to_float v ;; Ok (r + y)%R.

(** [a / b] (true division) *)
Definition py_truediv (a b : value) : result R :=
  x <- to_float a ;;
  y <- to_float b ;;
  if Reqb y 0 then Raise ZeroDivisionError else Ok (x / y)%R.

(** [r / b] with a float on the left *)
Definition py_float_div (r : R) (b : value) : result R :=
  y <- to_float b ;;
  if Reqb y 0 then Raise ZeroDivisionError else Ok (r / y)%R.

(** [l[i]] *)
Definition getitem {A : Type} (l : list A) (i : nat) : result A :=
  match nth_error l i with
  | Some v => Ok v
  | None => Raise IndexError
  end.

(** The integers of [range(a, b)], in order. *)
Definition py_range (a b : Z) : list Z :=
  map (fun k => (a + Z.of_nat k)%Z) (seq 0 (Z.to_nat (b - a))).

(** [d in range(a, b)]: arithmetic for an [int], and for any other
    object a linear search by [==]. *)
Definition py_in_range (d : value) (a b : Z) : bool :=
  match d with
  | VInt z => (a <=? z)%Z && (z <? b)%Z
  | _ => existsb (fun z => py_eq d (VInt z)) (py_range a b)
  end.

(** ** The [math] functions, over the reals *)

Definition fabs (v : value) : result R :=
  x <- to_float v ;; Ok (Rabs x).

Definition radians (v : value) : result R :=
  x <- to_float v ;; Ok (x * (PI / 180))%R.

Definition degrees (x : R) : R := (x * (180 / PI))%R.

(** ** The seismic model *)

Definition layer : Type := list value.

Definition model : Type := list layer.

(** ** ModelValidator *)

Fixpoint is_layer_data_count_correct (m : model) : bool :=
  match m with
  | [] => true
  | l :: rest =>
      if Nat.eqb (List.length l) 3 then is_layer_data_count_correct rest
      else false
  end.

(** [type(v) is int] *)
Definition type_is_int (v : value) : bool :=
  match v with
  | VInt _ => true
  | _ => false
  end.

(** The class object [float] in a boolean context: any class is true. *)
Definition float_class_truth : bool := true.

(** [b or float], with [b] a boolean: the value is [b] when [b] is
    true and the class [float] otherwise; only its truth is used. *)
Definition or_float (b : bool) : bool :=
  if b then true else float_class_truth.

(** The inner loop [for i in range(3)] of the type check. *)
Fixpoint check_layer_fields (l : layer) (idx : list nat) : result bool :=
  match idx with
  | [] => Ok true
  | i :: rest =>
      v <- getitem l i ;;
      if or_float (type_is_int v) then check_layer_fields l rest
      else Ok false
  end.

Fixpoint check_layers_types (m : model) : result bool :=
  match m with
  | [] => Ok true
  | l :: rest =>
      b <- check_layer_fields l [0; 1; 2]%nat ;;
      if b then check_layers_types rest else Ok false
  end.

Definition is_input_data_integer_or_float
  (m : model) (incid_angle source_depth : value) : result bool :=
  b <- check_layers_types m ;;
  if negb b then Ok false
  else if or_float (negb (type_is_int incid_angle)) then Ok false
  else if or_float (negb (type_is_int source_depth)) then Ok false
  else Ok true.

Fixpoint is_speed_data_correct (m : model) : result bool :=
  match m with
  | [] => Ok true
  | l :: rest =>
      v <- getitem l 2 ;;
      b <- py_gt0 v ;;
      if b then is_speed_data_correct rest else Ok false
  end.

(** [source_depth in range(l[0], l[1])] *)
Definition source_in_range (l : layer) (source_depth : value) : result bool :=
  t <- getitem l 0 ;;
  b <- getitem l 1 ;;
  lo <- as_index t ;;
  hi <- as_index b ;;
  Ok (py_in_range source_depth lo hi).

Fixpoint is_source_occur_in_seismic_model
  (m : model) (source_depth : value) : result bool :=
  match m with
  | [] => Ok false
  | l :: rest =>
      b <- source_in_range l source_depth ;;
      if b then Ok true
      else is_source_occur_in_seismic_model rest source_depth
  end.

(** ** RayTracer *)

Definition get_thickness (layer_bottom layer_top : value) : result R :=
  d <- py_sub layer_bottom layer_top ;; fabs d.

(** [is_layer_exist_source], applied to the layer [seismic_model[i]]. *)
Definition is_layer_exist_source (l : layer) (source_depth : value)
  : result bool :=
  b <- source_in_range l source_depth ;;
  if negb b then Ok false else Ok true.

Definition count_angle (cur_angle lower_layer_speed upper_layer_speed : value)
  : result value :=
  r <- radians cur_angle ;;
  q <- py_truediv upper_layer_speed lower_layer_speed ;;
  let sin_beta := (sin r * q)%R in
  if Rltb 1 (Rabs sin_beta) then Ok (VInt (-2))
  else Ok (VFloat (degrees (asin sin_beta))).

Definition find_x_length (triangle_angle : value) (thickness : R) : result R :=
  r <- radians triangle_angle ;; Ok (tan r * thickness)%R.

Definition find_ray_length (thickness x_length : R) : R :=
  sqrt (thickness ^ 2 + x_length ^ 2).

Definition count_ray_duration (ray_length : R) (layer_speed : value)
  : result R :=
  py_float_div ray_length layer_speed.

(** The variables of the loop of [calculate_ray_tracing_values]. *)
Record loop_state : Type := mkState {
  layers_values : list (R * R);
  label_values : list (value * R);
  cur_angle : value;
  existing_counter : nat
}.

(** How an iteration leaves the loop body: on to the next index
    ([continue] or the end of the body), or out of the loop ([break]). *)
Inductive control : Type :=
| Next (s : loop_state)
| Break (s : loop_state).

(** One iteration, for the layer [l = seismic_model[i]]; [next] is
    [seismic_model[i+1]], absent exactly when [i == len - 1]. *)
Definition loop_body (incid_angle source_depth : value)
  (l : layer) (next : option layer) (s : loop_state) : result control :=
  is_exist <- is_layer_exist_source l source_depth ;;
  bottom <- getitem l 1 ;;
  top <- getitem l 0 ;;
  thickness <- get_thickness bottom top ;;
  let found := is_exist && Nat.eqb (existing_counter s) 0 in
  let cur := if found then incid_angle else cur_angle s in
  thickness <- (if found
                then (bottom' <- getitem l 1 ;;
                      get_thickness bottom' source_depth)
                else Ok thickness) ;;
  let counter := if found then S (existing_counter s) else existing_counter s in
  if negb is_exist && Nat.eqb counter 0 then Ok (Next s)
  else
    x_length <- find_x_length cur thickness ;;
    let ray_length := find_ray_length thickness x_length in
    speed <- getitem l 2 ;;
    time <- count_ray_duration ray_length speed ;;
    let lv := layers_values s ++ [(x_length, thickness)] in
    let lab := label_values s ++ [(cur, time)] in
    match next with
    | None => Ok (Next (mkState lv lab cur counter))
    | Some l' =>
        lower <- getitem l 2 ;;
        upper <- getitem l' 2 ;;
        cur' <- count_angle cur lower upper ;;
        if py_eq cur' (VInt (-2)) then Ok (Break (mkState lv lab cur' counter))
        else Ok (Next (mkState lv lab cur' counter))
    end.

(** The loop [for i in range(len(seismic_model))], on the layers from
    index [i] on. *)
Fixpoint trace_loop (incid_angle source_depth : value)
  (ls : list layer) (s : loop_state) : result loop_state :=
  match ls with
  | [] => Ok s
  | l :: rest =>
      c <- loop_body incid_angle source_depth l (hd_error rest) s ;;
      match c with
      | Next s' => trace_loop incid_angle source_depth rest s'
      | Break s' => Ok s'
      end
  end.

Definition initial_state : loop_state := mkState [] [] (VInt 0) 0.

Definition calculate_ray_tracing_values
  (m : model) (incid_angle source_depth : value)
  : result (list (R * R) * list (value * R)) :=
  s <- trace_loop incid_angle source_depth m initial_state ;;
  Ok (layers_values s, label_values s).

(** The loop of [create_coordinates]; [x] and [y] are the lists built so
    far and [i] the loop index. *)
Fixpoint coordinates_loop (lvs : list (R * R)) (i : nat) (x y : list value)
  : result (list value * list value) :=
  match lvs with
  | [] => Ok (x, y)
  | (dx, dy) :: rest =>
      xi <- getitem x i ;;
      x_length <- py_float_add dx xi ;;
      yi <- getitem y i ;;
      y_length <- py_float_add dy yi ;;
      coordinates_loop rest (S i)
        (x ++ [VFloat x_length]) (y ++ [VFloat y_length])
  end.

Definition create_coordinates (source_depth : value)
  (layers_values : list (R * R)) : result (list value * list value) :=
  coordinates_loop layers_values 0 [VInt 0] [source_depth].

(** What [trace_ray] hands to the plotting code: the coordinate lists
    and the labels. *)
Definition trace_result : Type :=
  (list value * list value) * list (value * R).

Definition trace_ray (m : model) (incid_angle source_depth : value)
  : result trace_result :=
  vals <- calculate_ray_tracing_values m incid_angle source_depth ;;
  coords <- create_coordinates source_depth (fst vals) ;;
  Ok (coords, snd vals).

(** ** The entry point *)

Inductive error_kind : Type :=
| MalformedLayer
| NonNumericInput
| InvalidVelocity
| SourceOutOfBounds.

Definition message (e : error_kind) : string :=
  match e with
  | MalformedLayer => "Layer data is incorrect"
  | NonNumericInput => "Input data is not integer or float"
  | InvalidVelocity => "Speed value is not correct"
  | SourceOutOfBounds => "Source dont occur in seismic model."
  end.

Inductive outcome : Type :=
| Rejected (e : error_kind)
| Traced (r : trace_result).

Definition check_input_data_correctness
  (m : model) (incid_angle source_depth : value) : result outcome :=
  if negb (is_layer_data_count_correct m) then Ok (Rejected MalformedLayer)
  else
    numeric <- is_input_data_integer_or_float m incid_angle source_depth ;;
    if negb numeric then Ok (Rejected NonNumericInput)
    else
      speed <- is_speed_data_correct m ;;
      if negb speed then Ok (Rejected InvalidVelocity)
      else
        occurs <- is_source_occur_in_seismic_model m source_depth ;;
        if negb occurs then Ok (Rejected SourceOutOfBounds)
        else
          r <- trace_ray m incid_angle source_depth ;;
          Ok (Traced r).

(** ** Reading a model *)

(** The real number a numeric value stands for. *)
Definition real_of (v : value) : R :=
  match v with
  | VInt z => IZR z
  | VFloat r => r
  | _ => 0%R
  end.

Definition numeric (v : value) : Prop :=
  match v with
  | VInt _ | VFloat _ => True
  | _ => False
  end.

Definition positive (v : value) : Prop :=
  match v with
  | VInt z => (0 < z)%Z
  | VFloat r => (0 < r)%R
  | _ => False
  end.

(** A layer of the data model: integer top and bottom (what [range]
    accepts) and a positive velocity. *)
Definition valid_layer (l : layer) : Prop :=
  match l with
  | [VInt _; VInt _; v] => positive v
  | _ => False
  end.

Definition valid_input (m : model) (incid_angle source_depth : value) : Prop :=
  Forall valid_layer m /\ numeric incid_angle /\
  is_source_occur_in_seismic_model m source_depth = Ok true.

Definition velocity (l : layer) : R := real_of (nth 2 l VNone).

Definition top_of (l : layer) : R := real_of (nth 0 l VNone).

Definition bottom_of (l : layer) : R := real_of (nth 1 l VNone).

(** The layers from the source layer (the first one in which
    [is_layer_exist_source] holds) to the last one. *)
Fixpoint source_suffix (m : model) (source_depth : value) : list layer :=
  match m with
  | [] => []
  | l :: rest =>
      match is_layer_exist_source l source_depth with
      | Ok true => l :: rest
      | _ => source_suffix rest source_depth
      end
  end.

(** The validation contract in the specification's words: the checks
    run in the given order, the first one that fails gives its error
    kind, and the continuation runs when none fails. *)
Fixpoint first_failing (checks : list (result bool * error_kind))
  (k : result outcome) : result outcome :=
  match checks with
  | [] => k
  | (c, e) :: rest =>
      b <- c ;;
      if b then first_failing rest k else Ok (Rejected e)
  end.

(** ** The shape of a trace

    A relational reading of the loop once the source layer is found,
    used to reason about what a run has emitted. *)

(** The segment of the ray in layer [l], entered with angle [cur] and
    crossing the thickness [th]: its horizontal extent and its time. *)
Definition segment (cur : value) (th : R) (l : layer) (x time : R) : Prop :=
  exists speed,
    find_x_length cur th = Ok x /\
    getitem l 2 = Ok speed /\
    count_ray_duration (find_ray_length th x) speed = Ok time.

(** The angle [cur'] that [count_angle] returns at the boundary between
    [l] and the next layer [l']. *)
Definition refraction (cur : value) (l l' : layer) (cur' : value) : Prop :=
  exists lower upper,
    getitem l 2 = Ok lower /\
    getitem l' 2 = Ok upper /\
    count_angle cur lower upper = Ok cur'.

(** [traversal cur th l rest lv lab]: entering layer [l] with angle
    [cur] and remaining thickness [th], with the layers [rest] below,
    the loop appends the entries [lv] and the labels [lab]. *)
Inductive traversal
  : value -> R -> layer -> list layer ->
    list (R * R) -> list (value * R) -> Prop :=
| traversal_last cur th l x time :
    segment cur th l x time ->
    traversal cur th l [] [(x, th)] [(cur, time)]
| traversal_break cur th l l' rest x time cur' :
    segment cur th l x time ->
    refraction cur l l' cur' ->
    py_eq cur' (VInt (-2)) = true ->
    traversal cur th l (l' :: rest) [(x, th)] [(cur, time)]
| traversal_next cur th l l' rest x time cur' b t th' lv lab :
    segment cur th l x time ->
    refraction cur l l' cur' ->
    py_eq cur' (VInt (-2)) = false ->
    getitem l' 1 = Ok b ->
    getitem l' 0 = Ok t ->
    get_thickness b t = Ok th' ->
    traversal cur' th' l' rest lv lab ->
    traversal cur th l (l' :: rest) ((x, th) :: lv) ((cur, time) :: lab).

(** What an iteration that emits does to the state. *)
Definition emitted (cur : value) (th : R) (l : layer) (next : option layer)
  (s : loop_state) (counter : nat) (c : control) : Prop :=
  exists x time,
    segment cur th l x time /\
    let lv := layers_values s ++ [(x, th)] in
    let lab := label_values s ++ [(cur, time)] in
    match next with
    | None => c = Next (mkState lv lab cur counter)
    | Some l' =>
        exists cur',
          refraction cur l l' cur' /\
          c = if py_eq cur' (VInt (-2))
              then Break (mkState lv lab cur' counter)
              else Next (mkState lv lab cur' counter)
    end.

(** The running sums [d1 + start], [d2 + (d1 + start)], ... that
    [create_coordinates] appends. *)
Fixpoint running (start : R) (ds : list R) : list R :=
  match ds with
  | [] => []
  | d :: rest => (d + start)%R :: running (d + start)%R rest
  end.

(** [sin(radians(angle))] for a numeric angle in degrees. *)
Definition sin_deg (angle : value) : R := sin (real_of angle * (PI / 180)).

(** The quantity [sin_beta] of [count_angle] at the boundary between
    the layers [l1] (above) and [l2] (below), for the angle [angle] in
    [l1]. *)
Definition sin_beta_at (angle : value) (l1 l2 : layer) : R :=
  (sin_deg angle * (velocity l2 / velocity l1))%R.

(** ** Labels

    [create_labels] annotates every vertex with a text built from the
    values it interpolates: the coordinates, and for every vertex but
    the last the angle and the time of its label.  An annotation keeps
    those values; the rendering of the text is [pyplot]'s and Python's
    formatting. *)

Inductive annotation : Type :=
| Annotated (x y angle : value) (time : R)
| Endpoint (x y : value).

(** The loop [for i in range(len(coords[0]))] of [create_labels], over
    the indices still to visit: the [pyplot.annotate] calls made. *)
Fixpoint labels_loop (coords : list value * list value)
  (label_values : list (value * R)) (idx : list nat)
  : result (list annotation) :=
  match idx with
  | [] => Ok []
  | i :: rest =>
      label <-
        (if negb (Nat.eqb i (List.length (fst coords) - 1))
         then
           x <- getitem (fst coords) i ;;
           y <- getitem (snd coords) i ;;
           lbl <- getitem label_values i ;;
           Ok (Annotated x y (fst lbl) (snd lbl))
         else
           x <- getitem (fst coords) i ;;
           y <- getitem (snd coords) i ;;
           Ok (Endpoint x y)) ;;
      more <- labels_loop coords label_values rest ;;
      Ok (label :: more)
  end.

Definition create_labels (coords : list value * list value)
  (label_values : list (value * R)) : result (list annotation) :=
  labels_loop coords label_values (seq 0 (List.length (fst coords))).

(** [trace_ray] to its end: the values are computed, the coordinates
    assembled and the labels created. *)
Definition trace_ray_labels (m : model) (incid_angle source_depth : value)
  : result (list annotation) :=
  r <- trace_ray m incid_angle source_depth ;;
  create_labels (fst r) (snd r).

(** A computation that does not end in [ZeroDivisionError]. *)
Definition no_zero_division {A : Type} (c : result A) : Prop :=
  c <> Raise ZeroDivisionError.

(** ** Example inputs *)

(** One layer, as in the first scenario of the specification. *)
Definition example_single : model :=
  [[VInt 0; VInt 100; VInt 2000]].

(** Two layers of equal velocity. *)
Definition example_equal_speed : model :=
  [[VInt 0; VInt 10; VInt 1]; [VInt 10; VInt 20; VInt 1]].

(** Two layers, the lower one three times faster. *)
Definition example_critical : model :=
  [[VInt 0; VInt 10; VInt 1]; [VInt 10; VInt 20; VInt 3]].

(** Two layers, the lower one twice slower. *)
Definition example_refracting : model :=
  [[VInt 0; VInt 10; VInt 2]; [VInt 10; VInt 20; VInt 1]].

(** A model whose second layer has two fields, neither numeric. *)
Definition example_short_layer : model :=
  [[VInt 0; VInt 100; VInt 2000]; [VStr "top"; VNone]].

(** A layer from 0 to 5, for a source at the fractional depth 2.5. *)
Definition example_fractional : model :=
  [[VInt 0; VInt 5; VInt 2000]].

(** The same layer with float bounds. *)
Definition example_float_bounds : model :=
  [[VFloat 0; VFloat 5; VInt 2000]].

(** * The tracer over binary64 floats

    The same methods once more, with Python's [float] as the IEEE 754
    binary64 numbers of the machine: conversions of integers round and
    overflow, sums and differences round, and NaN and the infinities
    are values.  The functions of the C math library that the tracer
    calls ([sin], [tan], [asin], [sqrt]), the power [x ** y] and the
    true division of two integers are a parameter [L] of the
    development: whatever they return, or raise, the results below
    hold. *)

Module Binary64.

Import PrimFloat FloatOps SpecFloat FloatAxioms.

(** ** Python values and exceptions *)

Inductive value : Type :=
| VInt (z : Z)
| VFloat (f : float)
| VStr (s : string)
| VNone.

Inductive exn : Type :=
| TypeError
| IndexError
| ZeroDivisionError
| OverflowError
| ValueError.

Inductive result (A : Type) : Type :=
| Ok (a : A)
| Raise (e : exn).

Arguments Ok {A} a.
Arguments Raise {A} e.

Definition bind {A B : Type} (c : result A) (k : A -> result B) : result B :=
  match c with
  | Ok a => k a
  | Raise e => Raise e
  end.

Notation "x <~ c ;; k" := (bind c (fun x => k))
  (at level 61, c at next level, right associativity).

(** [float(z)] for an [int]: the nearest binary64 number, ties to even,
    and [OverflowError] when that is beyond the largest finite one. *)
Definition float_of_int (z : Z) : result float :=
  let f := SF2Prim (binary_normalize prec emax z 0 false) in
  if is_infinity f then Raise OverflowError else Ok f.

(** The integer a float is equal to, when there is one: what decides
    [f == z] between a [float] and an [int], which Python compares by
    their exact values. *)
Definition exact_int (f : float) : option Z :=
  match Prim2SF f with
  | S754_zero _ => Some 0%Z
  | S754_finite s m e =>
      let sign := if s then (-1)%Z else 1%Z in
      if (0 <=? e)%Z then Some (sign * (Z.pos m * 2 ^ e))%Z
      else if (Z.pos m mod 2 ^ (- e) =? 0)%Z
           then Some (sign * (Z.pos m / 2 ^ (- e)))%Z
           else None
  | _ => None
  end.

(** The conversion to a C double made by [math.fabs], [math.radians]
    and by arithmetic with a [float]. *)
Definition to_float (v : value) : result float :=
  match v with
  | VInt z => float_of_int z
  | VFloat f => Ok f
  | _ => Raise TypeError
  end.

(** [operator.index(v)], as [range] applies it to its arguments. *)
Definition as_index (v : value) : result Z :=
  match v with
  | VInt z => Ok z
  | _ => Raise TypeError
  end.

(** [a == b] *)
Definition py_eq (a b : value) : bool :=
  match a, b with
  | VInt x, VInt y => Z.eqb x y
  | VInt x, VFloat y =>
      match exact_int y with Some z => Z.eqb x z | None => false end
  | VFloat x, VInt y =>
      match exact_int x with Some z => Z.eqb z y | None => false end
  | VFloat x, VFloat y => (x =? y)%float
  | VStr s, VStr t => String.eqb s t
  | VNone, VNone => true
  | _, _ => false
  end.

(** [v > 0] *)
Definition py_gt0 (v : value) : result bool :=
  match v with
  | VInt z => Ok (0 <? z)%Z
  | VFloat f => Ok (0 <? f)%float
  | _ => Raise TypeError
  end.

(** [a - b] *)
Definition py_sub (a b : value) : result value :=
  match a, b with
  | VInt x, VInt y => Ok (VInt (x - y))
  | VInt x, VFloat y => f <~ float_of_int x ;; Ok (VFloat (f - y))
  | VFloat x, VInt y => f <~ float_of_int y ;; Ok (VFloat (x - f))
  | VFloat x, VFloat y => Ok (VFloat (x - y))
  | _, _ => Raise TypeError
  end.

(** [r + v] with a float on the left *)
Definition py_float_add (r : float) (v : value) : result float :=
  y <~ to_float v ;; Ok (r + y)%float.

(** [x / y] for two floats *)
Definition float_div (x y : float) : result float :=
  if (y =? 0)%float then Raise ZeroDivisionError else Ok (x / y)%float.

(** [r / b] with a float on the left *)
Definition py_float_div (r : float) (b : value) : result float :=
  y <~ to_float b ;; float_div r y.

(** [l[i]] *)
Definition getitem {A : Type} (l : list A) (i : nat) : result A :=
  match nth_error l i with
  | Some v => Ok v
  | None => Raise IndexError
  end.

(** [d in range(a, b)]: arithmetic for an [int], and for any other
    object a linear search by [==]. *)
Definition py_in_range (d : value) (a b : Z) : bool :=
  match d with
  | VInt z => (a <=? z)%Z && (z <? b)%Z
  | _ => existsb (fun z => py_eq d (VInt z)) (py_range a b)
  end.

(** ** The math library *)

(** What the interpreter takes from the C library and from its
    big-integer arithmetic; each may raise. *)
Record libm : Type := {
  math_sin : float -> result float;
  math_tan : float -> result float;
  math_asin : float -> result float;
  math_sqrt : float -> result float;
  float_pow : float -> float -> result float;
  int_truediv : Z -> Z -> result float
}.

Definition fabs (v : value) : result float :=
  x <~ to_float v ;; Ok (abs x).

(** [math.radians] and [math.degrees] multiply by the constants
    [pi / 180] and [180 / pi], computed in binary64. *)
Definition pi : float := 0x1.921fb54442d18p+1%float.

Definition deg_to_rad : float := (pi / 180)%float.

Definition rad_to_deg : float := (180 / pi)%float.

Definition radians (v : value) : result float :=
  x <~ to_float v ;; Ok (x * deg_to_rad)%float.

Definition degrees (x : float) : float := (x * rad_to_deg)%float.

(** ** The seismic model *)

Definition layer : Type := list value.

Definition model : Type := list layer.

(** ** The checks on the model *)

Fixpoint is_layer_data_count_correct (m : model) : bool :=
  match m with
  | [] => true
  | l :: rest =>
      if Nat.eqb (List.length l) 3 then is_layer_data_count_correct rest
      else false
  end.

Fixpoint is_speed_data_correct (m : model) : result bool :=
  match m with
  | [] => Ok true
  | l :: rest =>
      v <~ getitem l 2 ;;
      b <~ py_gt0 v ;;
      if b then is_speed_data_correct rest else Ok false
  end.

(** [source_depth in range(l[0], l[1])] *)
Definition source_in_range (l : layer) (source_depth : value) : result bool :=
  t <~ getitem l 0 ;;
  b <~ getitem l 1 ;;
  lo <~ as_index t ;;
  hi <~ as_index b ;;
  Ok (py_in_range source_depth lo hi).

Fixpoint is_source_occur_in_seismic_model
  (m : model) (source_depth : value) : result bool :=
  match m with
  | [] => Ok false
  | l :: rest =>
      b <~ source_in_range l source_depth ;;
      if b then Ok true
      else is_source_occur_in_seismic_model rest source_depth
  end.

(** ** RayTracer *)

Definition get_thickness (layer_bottom layer_top : value) : result float :=
  d <~ py_sub layer_bottom layer_top ;; fabs d.

Definition is_layer_exist_source (l : layer) (source_depth : value)
  : result bool :=
  b <~ source_in_range l source_depth ;;
  if negb b then Ok false else Ok true.

(** The variables of the loop of [calculate_ray_tracing_values]. *)
Record loop_state : Type := mkState {
  layers_values : list (float * float);
  label_values : list (value * float);
  cur_angle : value;
  existing_counter : nat
}.

Inductive control : Type :=
| Next (s : loop_state)
| Break (s : loop_state).

(** The loop of [create_coordinates]. *)
Fixpoint coordinates_loop (lvs : list (float * float)) (i : nat)
  (x y : list value) : result (list value * list value) :=
  match lvs with
  | [] => Ok (x, y)
  | (dx, dy) :: rest =>
      xi <~ getitem x i ;;
      x_length <~ py_float_add dx xi ;;
      yi <~ getitem y i ;;
      y_length <~ py_float_add dy yi ;;
      coordinates_loop rest (S i)
        (x ++ [VFloat x_length]) (y ++ [VFloat y_length])
  end.

Definition create_coordinates (source_depth : value)
  (layers_values : list (float * float)) : result (list value * list value) :=
  coordinates_loop layers_values 0 [VInt 0] [source_depth].

Definition trace_result : Type :=
  (list value * list value) * list (value * float).

(** The layers from the source layer (the first one in which
    [is_layer_exist_source] holds) to the last one. *)
Fixpoint source_suffix (m : model) (source_depth : value) : list layer :=
  match m with
  | [] => []
  | l :: rest =>
      match is_layer_exist_source l source_depth with
      | Ok true => l :: rest
      | _ => source_suffix rest source_depth
      end
  end.

Section Tracer.

Variable L : libm.

(** [a / b] (true division) *)
Definition py_truediv (a b : value) : result float :=
  match a, b with
  | VInt x, VInt y =>
      if (y =? 0)%Z then Raise ZeroDivisionError else int_truediv L x y
  | VInt x, VFloat y => f <~ float_of_int x ;; float_div f y
  | VFloat x, VInt y => f <~ float_of_int y ;; float_div x f
  | VFloat x, VFloat y => float_div x y
  | _, _ => Raise TypeError
  end.

(** The local variable [sin_beta] of [count_angle]. *)
Definition sin_beta (cur_angle lower_layer_speed upper_layer_speed : value)
  : result float :=
  r <~ radians cur_angle ;;
  s <~ math_sin L r ;;
  q <~ py_truediv upper_layer_speed lower_layer_speed ;;
  Ok (s * q)%float.

Definition count_angle (cur_angle lower_layer_speed upper_layer_speed : value)
  : result value :=
  sb <~ sin_beta cur_angle lower_layer_speed upper_layer_speed ;;
  if (1 <? abs sb)%float then Ok (VInt (-2))
  else
    a <~ math_asin L sb ;;
    Ok (VFloat (degrees a)).

Definition find_x_length (triangle_angle : value) (thickness : float)
  : result float :=
  r <~ radians triangle_angle ;;
  t <~ math_tan L r ;;
  Ok (t * thickness)%float.

Definition find_ray_length (thickness x_length : float) : result float :=
  a <~ float_pow L thickness 2 ;;
  b <~ float_pow L x_length 2 ;;
  math_sqrt L (a + b)%float.

Definition count_ray_duration (ray_length : float) (layer_speed : value)
  : result float :=
  py_float_div ray_length layer_speed.

(** One iteration, for the layer [l = seismic_model[i]]; [next] is
    [seismic_model[i+1]], absent exactly when [i == len - 1]. *)
Definition loop_body (incid_angle source_depth : value)
  (l : layer) (next : option layer) (s : loop_state) : result control :=
  is_exist <~ is_layer_exist_source l source_depth ;;
  bottom <~ getitem l 1 ;;
  top <~ getitem l 0 ;;
  thickness <~ get_thickness bottom top ;;
  let found := is_exist && Nat.eqb (existing_counter s) 0 in
  let cur := if found then incid_angle else cur_angle s in
  thickness <~ (if found
                then (bottom' <~ getitem l 1 ;;
                      get_thickness bottom' source_depth)
                else Ok thickness) ;;
  let counter := if found then S (existing_counter s) else existing_counter s in
  if negb is_exist && Nat.eqb counter 0 then Ok (Next s)
  else
    x_length <~ find_x_length cur thickness ;;
    ray_length <~ find_ray_length thickness x_length ;;
    speed <~ getitem l 2 ;;
    time <~ count_ray_duration ray_length speed ;;
    let lv := layers_values s ++ [(x_length, thickness)] in
    let lab := label_values s ++ [(cur, time)] in
    match next with
    | None => Ok (Next (mkState lv lab cur counter))
    | Some l' =>
        lower <~ getitem l 2 ;;
        upper <~ getitem l' 2 ;;
        cur' <~ count_angle cur lower upper ;;
        if py_eq cur' (VInt (-2)) then Ok (Break (mkState lv lab cur' counter))
        else Ok (Next (mkState lv lab cur' counter))
    end.

Fixpoint trace_loop (incid_angle source_depth : value)
  (ls : list layer) (s : loop_state) : result loop_state :=
  match ls with
  | [] => Ok s
  | l :: rest =>
      c <~ loop_body incid_angle source_depth l (hd_error rest) s ;;
      match c with
      | Next s' => trace_loop incid_angle source_depth rest s'
      | Break s' => Ok s'
      end
  end.

Definition initial_state : loop_state := mkState [] [] (VInt 0) 0.

Definition calculate_ray_tracing_values
  (m : model) (incid_angle source_depth : value)
  : result (list (float * float) * list (value * float)) :=
  s <~ trace_loop incid_angle source_depth m initial_state ;;
  Ok (layers_values s, label_values s).

Definition trace_ray (m : model) (incid_angle source_depth : value)
  : result trace_result :=
  vals <~ calculate_ray_tracing_values m incid_angle source_depth ;;
  coords <~ create_coordinates source_depth (fst vals) ;;
  Ok (coords, snd vals).

(** ** The shape of a trace *)

(** The segment of the ray in layer [l], entered with angle [cur] and
    crossing the thickness [th]: its horizontal extent and its time. *)
Definition segment (cur : value) (th : float) (l : layer) (x time : float)
  : Prop :=
  exists ray speed,
    find_x_length cur th = Ok x /\
    find_ray_length th x = Ok ray /\
    getitem l 2 = Ok speed /\
    count_ray_duration ray speed = Ok time.

(** The value [cur'] that [count_angle] returns at the boundary between
    [l] and the next layer [l']. *)
Definition refraction (cur : value) (l l' : layer) (cur' : value) : Prop :=
  exists lower upper,
    getitem l 2 = Ok lower /\
    getitem l' 2 = Ok upper /\
    count_angle cur lower upper = Ok cur'.

(** [traversal cur th l rest lv lab]: entering layer [l] with angle
    [cur] and remaining thickness [th], with the layers [rest] below,
    the loop appends the entries [lv] and the labels [lab]. *)
Inductive traversal
  : value -> float -> layer -> list layer ->
    list (float * float) -> list (value * float) -> Prop :=
| traversal_last cur th l x time :
    segment cur th l x time ->
    traversal cur th l [] [(x, th)] [(cur, time)]
| traversal_break cur th l l' rest x time cur' :
    segment cur th l x time ->
    refraction cur l l' cur' ->
    py_eq cur' (VInt (-2)) = true ->
    traversal cur th l (l' :: rest) [(x, th)] [(cur, time)]
| traversal_next cur th l l' rest x time cur' b t th' lv lab :
    segment cur th l x time ->
    refraction cur l l' cur' ->
    py_eq cur' (VInt (-2)) = false ->
    getitem l' 1 = Ok b ->
    getitem l' 0 = Ok t ->
    get_thickness b t = Ok th' ->
    traversal cur' th' l' rest lv lab ->
    traversal cur th l (l' :: rest) ((x, th) :: lv) ((cur, time) :: lab).

(** What an iteration that emits does to the state. *)
Definition emitted (cur : value) (th : float) (l : layer) (next : option layer)
  (s : loop_state) (counter : nat) (c : control) : Prop :=
  exists x time,
    segment cur th l x time /\
    let lv := layers_values s ++ [(x, th)] in
    let lab := label_values s ++ [(cur, time)] in
    match next with
    | None => c = Next (mkState lv lab cur counter)
    | Some l' =>
        exists cur',
          refraction cur l l' cur' /\
          c = if py_eq cur' (VInt (-2))
              then Break (mkState lv lab cur' counter)
              else Next (mkState lv lab cur' counter)
    end.

End Tracer.

(** The small-angle library, [sin x = tan x = asin x = x], with the
    square root of the processor, used to run the examples. *)
Definition small_angle : libm := {|
  math_sin := fun x => Ok x;
  math_tan := fun x => Ok x;
  math_asin := fun x => Ok x;
  math_sqrt := fun x =>
    if (x <? 0)%float then Raise ValueError else Ok (PrimFloat.sqrt x);
  float_pow := fun x y =>
    if is_infinity (x * x)%float && is_finite x then Raise OverflowError
    else Ok (x * x)%float;
  int_truediv := fun a b =>
    x <~ float_of_int a ;; y <~ float_of_int b ;; Ok (x / y)%float
|}.


(** The running sums [d1 + start], [d2 + (d1 + start)], ... that
    [create_coordinates] appends, each one rounded. *)
Fixpoint sums (start : float) (ds : list float) : list float :=
  match ds with
  | [] => []
  | d :: rest => (d + start)%float :: sums (d + start)%float rest
  end.

(** A value equal to zero: the integer 0 or a float zero of either sign. *)
Definition is_zero_value (v : value) : bool :=
  match v with
  | VInt z => (z =? 0)%Z
  | VFloat f => is_zero f
  | _ => false
  end.

(** A float that is neither an infinity nor NaN; an integer is always
    finite. *)
Definition finite_value (v : value) : bool :=
  match v with
  | VFloat f => is_finite f
  | _ => true
  end.

(** The quotient [upper / lower] of the velocities, as [count_angle]
    computes it, is a finite float at every boundary between two
    consecutive layers of [ls]. *)
Fixpoint finite_ratios (L : libm) (ls : list layer) : bool :=
  match ls with
  | [] => true
  | l1 :: rest =>
      match rest with
      | [] => true
      | l2 :: _ =>
          match (lower <~ getitem l1 2 ;;
                 upper <~ getitem l2 2 ;;
                 py_truediv L upper lower) with
          | Ok q => is_finite q
          | Raise _ => false
          end && finite_ratios L rest
      end
  end.

(** A function of the math library that, where it returns, maps a zero
    to a zero, as C's [sin], [tan] and [asin] do. *)
Definition preserves_zero (f : float -> result float) : Prop :=
  forall x y, is_zero x = true -> f x = Ok y -> is_zero y = true.

(** ** Example inputs *)

Definition example_equal_speed : model :=
  [[VInt 0; VInt 10; VInt 1]; [VInt 10; VInt 20; VInt 1]].

Definition example_critical : model :=
  [[VInt 0; VInt 10; VInt 1]; [VInt 10; VInt 20; VInt 3]].

(** A layer whose bottom is beyond the largest float. *)
Definition example_deep : model :=
  [[VInt 0; VInt (10 ^ 400); VInt 1]].

(** The same layer above a faster one. *)
Definition example_deep_critical : model :=
  [[VInt 0; VInt (10 ^ 400); VInt 1];
   [VInt (10 ^ 400); VInt (10 ^ 400 + 10); VInt 3]].


(** The traces of these models with the small-angle library: at 30
    degrees into the faster layer, at -2, 0 and 10 degrees through
    equal velocities, all from depth 5, and vertically from
    [2^53 + 1].  The floats are written in hexadecimal, which is exact;
    in decimal the x-coordinates are 2.617993877991494,
    -0.17453292519943295, 0.87266462599716477 and 2.6179938779914944,
    and the times 5.6439252249831364, 5.0030452468450326,
    5.0755830748266524 and 10.151166149653305. *)
Definition example_critical_trace : trace_result :=
  (([VInt 0; VFloat 0x1.4f1a6c638d03ep+1], [VInt 5; VFloat 10]),
   [(VInt 30, 0x1.6936122597cf1p+2%float)]).

Definition example_sentinel_trace : trace_result :=
  (([VInt 0; VFloat (-0x1.657184ae74487p-3)], [VInt 5; VFloat 10]),
   [(VInt (-2), 0x1.4031e4b0e6e3fp+2%float)]).

Definition example_vertical_trace : trace_result :=
  (([VInt 0; VFloat 0; VFloat 0], [VInt 5; VFloat 10; VFloat 20]),
   [(VInt 0, 5%float); (VFloat 0, 10%float)]).

Definition example_refracted_trace : trace_result :=
  (([VInt 0; VFloat 0x1.becde5da115a9p-1; VFloat 0x1.4f1a6c638d03fp+1],
    [VInt 5; VFloat 10; VFloat 20]),
   [(VInt 10, 0x1.44d65a64a0bdfp+2%float);
    (VFloat 10, 0x1.44d65a64a0bdfp+3%float)]).


End Binary64.

(** * Properties *)

(** ** Basic facts *)

Lemma bind_Ok_inv {A B : Type} (c : result A) (k : A -> result B) (b : B) :
  bind c k = Ok b -> exists a, c = Ok a /\ k a = Ok b.
Proof.
  destruct c as [a | e]; simpl; intros H.
  - exists a. split; [reflexivity | exact H].
  - discriminate H.
Qed.

Lemma Rltb_true (x y : R) : Rltb x y = true <-> (x < y)%R.
Proof.
  unfold Rltb. destruct (Rlt_dec x y); split; intros; try easy.
Qed.

Lemma Rltb_false (x y : R) : Rltb x y = false <-> (y <= x)%R.
Proof.
  unfold Rltb. destruct (Rlt_dec x y); split; intros; try easy; lra.
Qed.

Lemma Reqb_true (x y : R) : Reqb x y = true <-> x = y.
Proof.
  unfold Reqb. destruct (Req_dec_T x y); split; intros; try easy.
Qed.

Lemma Reqb_false (x y : R) : Reqb x y = false <-> x <> y.
Proof.
  unfold Reqb. destruct (Req_dec_T x y); split; intros; try easy.
Qed.

(** ** The validator *)

Lemma count_correct_length (m : model) :
  is_layer_data_count_correct m = true <->
  Forall (fun l => List.length l = 3%nat) m.
Proof.
  induction m as [| l rest IH]; simpl.
  - split; intros; [constructor | reflexivity].
  - destruct (Nat.eqb (List.length l) 3) eqn:E.
    + apply Nat.eqb_eq in E. rewrite IH. split; intros H.
      * constructor; assumption.
      * inversion H; assumption.
    + apply Nat.eqb_neq in E. split; intros H; [discriminate |].
      inversion H; contradiction.
Qed.

Lemma or_float_true (b : bool) : or_float b = true.
Proof. destruct b; reflexivity. Qed.

Lemma check_layer_fields_three (l : layer) :
  List.length l = 3%nat -> check_layer_fields l [0; 1; 2]%nat = Ok true.
Proof.
  destruct l as [| a [| b [| c [| ? ?]]]]; simpl; try discriminate.
  intros _. unfold getitem; simpl. rewrite !or_float_true. reflexivity.
Qed.

Lemma check_layers_types_count (m : model) :
  is_layer_data_count_correct m = true -> check_layers_types m = Ok true.
Proof.
  rewrite count_correct_length.
  induction 1 as [| l rest Hl _ IH]; cbn [check_layers_types].
  - reflexivity.
  - rewrite (check_layer_fields_three l Hl). simpl. exact IH.
Qed.

(** Once every layer has three fields the type check answers [False],
    whatever the fields, the angle and the depth are. *)
Lemma type_check_always_false (m : model) (a d : value) :
  is_layer_data_count_correct m = true ->
  is_input_data_integer_or_float m a d = Ok false.
Proof.
  intros H. unfold is_input_data_integer_or_float.
  rewrite (check_layers_types_count m H). simpl.
  rewrite or_float_true. reflexivity.
Qed.

Lemma entry_point_outcomes (m : model) (a d : value) :
  check_input_data_correctness m a d =
    Ok (Rejected (if is_layer_data_count_correct m
                  then NonNumericInput else MalformedLayer)).
Proof.
  unfold check_input_data_correctness.
  destruct (is_layer_data_count_correct m) eqn:E; simpl.
  - rewrite (type_check_always_false m a d E). reflexivity.
  - reflexivity.
Qed.

(** ** The loop of the tracer *)

Ltac bind_inv H :=
  let a := fresh "a" in
  let E := fresh "E" in
  apply bind_Ok_inv in H; destruct H as (a & E & H).

Lemma is_layer_exist_source_eq (l : layer) (d : value) :
  is_layer_exist_source l d = source_in_range l d.
Proof.
  unfold is_layer_exist_source.
  destruct (source_in_range l d) as [[|] | e]; reflexivity.
Qed.

Lemma emitted_inv (cur : value) (th : R) (l : layer) (next : option layer)
  (s : loop_state) (counter : nat) (c : control) :
  (x_length <- find_x_length cur th ;;
   let ray_length := find_ray_length th x_length in
   speed <- getitem l 2 ;;
   time <- count_ray_duration ray_length speed ;;
   let lv := layers_values s ++ [(x_length, th)] in
   let lab := label_values s ++ [(cur, time)] in
   match next with
   | None => Ok (Next (mkState lv lab cur counter))
   | Some l' =>
       lower <- getitem l 2 ;;
       upper <- getitem l' 2 ;;
       cur' <- count_angle cur lower upper ;;
       if py_eq cur' (VInt (-2)) then Ok (Break (mkState lv lab cur' counter))
       else Ok (Next (mkState lv lab cur' counter))
   end) = Ok c ->
  emitted cur th l next s counter c.
Proof.
  intros H.
  bind_inv H. rename a into x. cbv zeta in H.
  bind_inv H. rename a into speed.
  bind_inv H. rename a into time.
  exists x, time. split.
  - exists speed. auto.
  - cbv zeta. destruct next as [l' |].
    + bind_inv H. bind_inv H. bind_inv H. rename a1 into cur'.
      exists cur'. split.
      * exists a, a0. auto.
      * destruct (py_eq cur' (VInt (-2))); congruence.
    + congruence.
Qed.

(** What one iteration does, read off a successful run of the body:
    the layer is skipped, or it is the source layer, or the ray is
    already being traced. *)
Lemma loop_body_inv (a d : value) (l : layer) (next : option layer)
  (s : loop_state) (c : control) :
  loop_body a d l next s = Ok c ->
  exists is_exist b t th0,
    is_layer_exist_source l d = Ok is_exist /\
    getitem l 1 = Ok b /\ getitem l 0 = Ok t /\
    get_thickness b t = Ok th0 /\
    ((is_exist = false /\ existing_counter s = 0%nat /\ c = Next s) \/
     (is_exist = true /\ existing_counter s = 0%nat /\
      exists th, get_thickness b d = Ok th /\ emitted a th l next s 1 c) \/
     (existing_counter s <> 0%nat /\
      emitted (cur_angle s) th0 l next s (existing_counter s) c)).
Proof.
  unfold loop_body. intros H.
  bind_inv H. rename a0 into is_exist, E into Hexist.
  bind_inv H. rename a0 into b, E into Hb.
  bind_inv H. rename a0 into t, E into Ht.
  bind_inv H. rename a0 into th0, E into Hth0.
  exists is_exist, b, t, th0. repeat (split; [assumption |]).
  destruct (Nat.eqb (existing_counter s) 0) eqn:Ec.
  - apply Nat.eqb_eq in Ec. destruct is_exist; simpl in H.
    + right; left. repeat (split; [auto |]).
      bind_inv H. rename a0 into th. bind_inv E. rewrite Hb in E0.
      injection E0 as <-. exists th. split; [assumption |].
      rewrite Ec in H. apply emitted_inv. exact H.
    + left. rewrite Ec in H. simpl in H. repeat split; congruence.
  - apply Nat.eqb_neq in Ec. right; right. split; [assumption |].
    rewrite andb_false_r in H. cbv zeta in H.
    replace (negb is_exist && Nat.eqb (existing_counter s) 0) with false in H.
    2:{ apply Nat.eqb_neq in Ec. rewrite Ec, andb_false_r. reflexivity. }
    bind_inv H. injection E as <-. apply emitted_inv. exact H.
Qed.

(** Once the source layer is behind, every layer emits: the entries
    appended to the state are those of a [traversal]. *)
Lemma trace_loop_tracing (a d : value) (rest : list layer) :
  forall (l : layer) (s s' : loop_state),
    existing_counter s <> 0%nat ->
    trace_loop a d (l :: rest) s = Ok s' ->
    exists b t th lv lab,
      getitem l 1 = Ok b /\ getitem l 0 = Ok t /\
      get_thickness b t = Ok th /\
      traversal (cur_angle s) th l rest lv lab /\
      layers_values s' = layers_values s ++ lv /\
      label_values s' = label_values s ++ lab.
Proof.
  induction rest as [| l' rest IH]; intros l s s' Hc H;
    cbn [trace_loop] in H; bind_inv H; rename a0 into c;
    apply loop_body_inv in E;
    destruct E as (is_exist & b & t & th0 & _ & Hb & Ht & Hth & Hcase);
    destruct Hcase as [(_ & Hz & _) | [(_ & Hz & _) | (_ & Hem)]];
    try contradiction;
    destruct Hem as (x & time & Hseg & Hem); cbn in Hem;
    exists b, t, th0.
  - subst c. cbn in H. injection H as <-.
    exists [(x, th0)], [(cur_angle s, time)]. cbn.
    repeat (split; [assumption || reflexivity |]).
    split; [| split; reflexivity]. constructor. assumption.
  - destruct Hem as (cur' & Href & ->).
    destruct (py_eq cur' (VInt (-2))) eqn:Eq.
    + injection H as <-.
      exists [(x, th0)], [(cur_angle s, time)]. cbn.
      repeat (split; [assumption || reflexivity |]).
      split; [| split; reflexivity].
      eapply traversal_break; eassumption.
    + apply IH in H; [| exact Hc].
      destruct H as (b' & t' & th' & lv & lab & Hb' & Ht' & Hth' & Htr & Hlv & Hlab).
      cbn in Htr, Hlv, Hlab.
      exists ((x, th0) :: lv), ((cur_angle s, time) :: lab).
      repeat (split; [assumption |]).
      split; [eapply traversal_next; eassumption |].
      rewrite Hlv, Hlab, <- !app_assoc. split; reflexivity.
Qed.

(** The whole loop, from a state in which no source layer has been
    seen: layers are skipped up to the source layer, and the rest is a
    traversal starting with the caller's angle. *)
Lemma trace_loop_searching (a d : value) (m : model) :
  forall (s s' : loop_state),
    existing_counter s = 0%nat ->
    trace_loop a d m s = Ok s' ->
    match source_suffix m d with
    | [] => s' = s
    | l :: rest =>
        exists b th lv lab,
          getitem l 1 = Ok b /\ get_thickness b d = Ok th /\
          traversal a th l rest lv lab /\
          layers_values s' = layers_values s ++ lv /\
          label_values s' = label_values s ++ lab
    end.
Proof.
  induction m as [| l rest IH]; intros s s' Hc H; cbn [trace_loop] in H.
  - cbn. congruence.
  - bind_inv H. rename a0 into c. apply loop_body_inv in E.
    destruct E as (is_exist & b & t & th0 & Hex & Hb & Ht & Hth & Hcase).
    cbn [source_suffix]. rewrite Hex.
    destruct Hcase as [(-> & _ & ->) | [(-> & _ & th & Hthd & Hem) | (Hz & _)]];
      [| | contradiction].
    + apply IH; assumption.
    + destruct Hem as (x & time & Hseg & Hem). cbn in Hem.
      exists b, th. destruct rest as [| l' rest]; cbn in Hem.
      * subst c. injection H as <-.
        exists [(x, th)], [(a, time)]. cbn.
        repeat (split; [assumption || reflexivity |]).
        split; [| split; reflexivity]. constructor. assumption.
      * destruct Hem as (cur' & Href & ->).
        destruct (py_eq cur' (VInt (-2))) eqn:Eq.
        -- injection H as <-.
           exists [(x, th)], [(a, time)]. cbn.
           repeat (split; [assumption || reflexivity |]).
           split; [| split; reflexivity].
           eapply traversal_break; eassumption.
        -- apply trace_loop_tracing in H; [| cbn; discriminate].
           destruct H as (b' & t' & th' & lv & lab
                          & Hb' & Ht' & Hth' & Htr & Hlv & Hlab).
           cbn in Htr, Hlv, Hlab.
           exists ((x, th) :: lv), ((a, time) :: lab).
           repeat (split; [assumption |]).
           split; [eapply traversal_next; eassumption |].
           rewrite Hlv, Hlab, <- !app_assoc. split; reflexivity.
Qed.

(** The values a successful run returns are those of a traversal of
    the layers from the source layer on. *)
Lemma calculate_shape (m : model) (a d : value)
  (lv : list (R * R)) (lab : list (value * R)) :
  calculate_ray_tracing_values m a d = Ok (lv, lab) ->
  match source_suffix m d with
  | [] => lv = [] /\ lab = []
  | l :: rest =>
      exists b th,
        getitem l 1 = Ok b /\ get_thickness b d = Ok th /\
        traversal a th l rest lv lab
  end.
Proof.
  unfold calculate_ray_tracing_values. intros H. bind_inv H.
  injection H as <- <-.
  apply trace_loop_searching in E; [| reflexivity].
  destruct (source_suffix m d) as [| l rest].
  - subst a0. split; reflexivity.
  - destruct E as (b & th & lv & lab & Hb & Hth & Htr & Hlv & Hlab).
    cbn in Hlv, Hlab. subst. exists b, th. auto.
Qed.

(** ** Coordinates *)

Lemma to_float_real_of (v : value) (r : R) :
  to_float v = Ok r -> r = real_of v /\ numeric v.
Proof.
  destruct v; simpl; intros H; try discriminate;
    injection H as <-; split; constructor.
Qed.

Lemma to_float_numeric (v : value) :
  numeric v -> to_float v = Ok (real_of v).
Proof. destruct v; simpl; intros H; try contradiction; reflexivity. Qed.

Lemma getitem_nth {A : Type} (l : list A) (i : nat) (v dflt : A) :
  getitem l i = Ok v -> nth_error l i = Some v /\ nth i l dflt = v.
Proof.
  unfold getitem. destruct (nth_error l i) as [w |] eqn:E; [| discriminate].
  intros H. injection H as <-. split; [reflexivity |].
  apply nth_error_nth. exact E.
Qed.

Lemma coordinates_loop_shape (lvs : list (R * R)) :
  forall (i : nat) (x y xs ys : list value),
    List.length x = S i -> List.length y = S i ->
    coordinates_loop lvs i x y = Ok (xs, ys) ->
    xs = x ++ map VFloat (running (real_of (nth i x VNone)) (map fst lvs)) /\
    ys = y ++ map VFloat (running (real_of (nth i y VNone)) (map snd lvs)).
Proof.
  induction lvs as [| [dx dy] rest IH]; intros i x y xs ys Hx Hy H;
    cbn [coordinates_loop] in H.
  - injection H as <- <-. cbn. rewrite !app_nil_r. split; reflexivity.
  - bind_inv H. rename a into xi, E into Hxi.
    bind_inv H. rename a into xl, E into Hxl.
    bind_inv H. rename a into yi, E into Hyi.
    bind_inv H. rename a into yl, E into Hyl.
    apply (getitem_nth _ _ _ VNone) in Hxi, Hyi.
    destruct Hxi as [_ Hxi], Hyi as [_ Hyi].
    unfold py_float_add in Hxl, Hyl. bind_inv Hxl. bind_inv Hyl.
    apply to_float_real_of in E, E0. destruct E as [-> _], E0 as [-> _].
    injection Hxl as <-. injection Hyl as <-.
    apply IH in H; [| rewrite length_app; cbn; lia ..].
    rewrite !app_nth2 in H by lia.
    rewrite Hx, Hy, Nat.sub_diag in H. cbn [nth real_of] in H.
    destruct H as [-> ->]. cbn [map running fst snd].
    rewrite Hxi, Hyi, <- !app_assoc. split; reflexivity.
Qed.

Lemma create_coordinates_shape (d : value) (lv : list (R * R))
  (xs ys : list value) :
  create_coordinates d lv = Ok (xs, ys) ->
  xs = VInt 0 :: map VFloat (running 0 (map fst lv)) /\
  ys = d :: map VFloat (running (real_of d) (map snd lv)).
Proof.
  unfold create_coordinates. intros H.
  apply coordinates_loop_shape in H; [| reflexivity ..].
  exact H.
Qed.

Lemma running_length (ds : list R) :
  forall start, List.length (running start ds) = List.length ds.
Proof.
  induction ds as [| d rest IH]; intros start; cbn; [| rewrite IH]; reflexivity.
Qed.

(** ** The steps of a traversal *)

Lemma radians_val (v : value) (r : R) :
  radians v = Ok r -> r = (real_of v * (PI / 180))%R /\ numeric v.
Proof.
  unfold radians. intros H. bind_inv H.
  apply to_float_real_of in E. destruct E as [-> Hn].
  injection H as <-. auto.
Qed.

Lemma count_angle_inv (cur lower upper cur' : value) :
  count_angle cur lower upper = Ok cur' ->
  numeric cur /\ real_of lower <> 0%R /\
  let sin_beta :=
    (sin (real_of cur * (PI / 180)) * (real_of upper / real_of lower))%R in
  ((1 < Rabs sin_beta)%R /\ cur' = VInt (-2)) \/
  ((Rabs sin_beta <= 1)%R /\ cur' = VFloat (degrees (asin sin_beta))).
Proof.
  unfold count_angle, py_truediv. intros H.
  bind_inv H. apply radians_val in E. destruct E as [-> Hn].
  bind_inv H. bind_inv E. bind_inv E.
  apply to_float_real_of in E0, E1.
  destruct E0 as [-> _], E1 as [-> _].
  destruct (Reqb (real_of lower) 0) eqn:Ez; [discriminate |].
  apply Reqb_false in Ez. injection E as <-.
  split; [assumption |]. split; [assumption |]. cbv zeta in H |- *.
  destruct (Rltb 1 _) eqn:Ec.
  - apply Rltb_true in Ec. injection H as <-. left. auto.
  - apply Rltb_false in Ec. injection H as <-. right. auto.
Qed.

(** At a boundary, in terms of the two layers. *)
Lemma refraction_inv (cur : value) (l l' : layer) (cur' : value) :
  refraction cur l l' cur' ->
  numeric cur /\ velocity l <> 0%R /\
  let sin_beta :=
    (sin (real_of cur * (PI / 180)) * (velocity l' / velocity l))%R in
  ((1 < Rabs sin_beta)%R /\ cur' = VInt (-2)) \/
  ((Rabs sin_beta <= 1)%R /\ cur' = VFloat (degrees (asin sin_beta))).
Proof.
  intros (lower & upper & Hl & Hu & Hc).
  apply (getitem_nth _ _ _ VNone) in Hl, Hu.
  destruct Hl as [_ Hl], Hu as [_ Hu].
  unfold velocity. rewrite Hl, Hu.
  apply count_angle_inv. exact Hc.
Qed.

Lemma radians_degrees (x : R) : (degrees x * (PI / 180))%R = x.
Proof.
  unfold degrees. pose proof PI_neq0. field. assumption.
Qed.

Lemma traversal_lengths (cur : value) (th : R) (l : layer)
  (rest : list layer) (lv : list (R * R)) (lab : list (value * R)) :
  traversal cur th l rest lv lab ->
  List.length lv = List.length lab /\
  (1 <= List.length lab <= S (List.length rest))%nat.
Proof.
  induction 1; cbn; lia.
Qed.

Lemma trace_ray_shape (m : model) (a d : value) (xs ys : list value)
  (lab : list (value * R)) :
  trace_ray m a d = Ok ((xs, ys), lab) ->
  exists lv,
    calculate_ray_tracing_values m a d = Ok (lv, lab) /\
    xs = VInt 0 :: map VFloat (running 0 (map fst lv)) /\
    ys = d :: map VFloat (running (real_of d) (map snd lv)).
Proof.
  unfold trace_ray. intros H.
  bind_inv H. destruct a0 as [lv lab0]. bind_inv H. destruct a0 as [xs0 ys0].
  cbn [fst snd] in *. injection H as <- <- <-.
  apply create_coordinates_shape in E0.
  exists lv. auto.
Qed.

(** The labels and the vertices of a trace, against the layers from the
    source layer on: one label per emitted layer, one vertex more. *)
Lemma trace_ray_traversal (m : model) (a d : value) (xs ys : list value)
  (lab : list (value * R)) :
  trace_ray m a d = Ok ((xs, ys), lab) ->
  exists lv,
    xs = VInt 0 :: map VFloat (running 0 (map fst lv)) /\
    ys = d :: map VFloat (running (real_of d) (map snd lv)) /\
    List.length lv = List.length lab /\
    match source_suffix m d with
    | [] => lv = [] /\ lab = []
    | l :: rest =>
        exists b th,
          getitem l 1 = Ok b /\ get_thickness b d = Ok th /\
          traversal a th l rest lv lab
    end.
Proof.
  intros H. apply trace_ray_shape in H.
  destruct H as (lv & Hc & -> & ->).
  apply calculate_shape in Hc. exists lv.
  split; [reflexivity |]. split; [reflexivity |].
  destruct (source_suffix m d) as [| l rest].
  - destruct Hc as [-> ->]. auto.
  - destruct Hc as (b & th & Hb & Hth & Htr).
    pose proof (traversal_lengths _ _ _ _ _ _ Htr) as [Hlen _].
    split; [exact Hlen |]. exists b, th. auto.
Qed.

Lemma trace_ray_lengths (m : model) (a d : value) (xs ys : list value)
  (lab : list (value * R)) :
  trace_ray m a d = Ok ((xs, ys), lab) ->
  List.length xs = S (List.length lab) /\
  List.length ys = S (List.length lab) /\
  (List.length lab <= List.length (source_suffix m d))%nat.
Proof.
  intros H. apply trace_ray_traversal in H.
  destruct H as (lv & -> & -> & Hlen & Hsuf).
  cbn [List.length]. rewrite !length_map, !running_length, !length_map, Hlen.
  repeat split.
  destruct (source_suffix m d) as [| l rest].
  - destruct Hsuf as [_ ->]. cbn. lia.
  - destruct Hsuf as (b & th & _ & _ & Htr).
    apply traversal_lengths in Htr. cbn [List.length]. lia.
Qed.

(** ** Valid layers *)

Lemma valid_layer_inv (l : layer) :
  valid_layer l -> exists t b v, l = [VInt t; VInt b; v] /\ positive v.
Proof.
  destruct l as [| [t | | |] [| [b | | |] [| v [| ? ?]]]]; cbn;
    try contradiction.
  intros H. exists t, b, v. auto.
Qed.

Lemma positive_real (v : value) :
  positive v -> numeric v /\ (0 < real_of v)%R.
Proof.
  destruct v; cbn; intros H; try contradiction; split; auto.
  apply IZR_lt. exact H.
Qed.

(** ** Where a trace stops *)

(** When no boundary makes [count_angle] return a value equal to [-2],
    every layer from the source layer on is emitted. *)
Lemma traversal_complete (cur : value) (th : R) (l : layer)
  (rest : list layer) (lv : list (R * R)) (lab : list (value * R)) :
  traversal cur th l rest lv lab ->
  (forall (k : nat) (angle : value) (time : R) (l1 l2 : layer) (cur' : value),
     nth_error lab k = Some (angle, time) ->
     nth_error (l :: rest) k = Some l1 ->
     nth_error (l :: rest) (S k) = Some l2 ->
     refraction angle l1 l2 cur' -> py_eq cur' (VInt (-2)) = false) ->
  List.length lab = S (List.length rest).
Proof.
  induction 1 as [cur th l x time Hseg
                 | cur th l l' rest x time cur' Hseg Href Heq
                 | cur th l l' rest x time cur' b t th' lv lab
                     Hseg Href Heq Hb Ht Hth Htr IH];
    intros Hno.
  - reflexivity.
  - specialize (Hno 0%nat cur time l l' cur' eq_refl eq_refl eq_refl Href).
    congruence.
  - cbn [List.length]. f_equal. apply IH.
    intros k angle tm l1 l2 c Hk H1 H2 Hr.
    apply (Hno (S k) angle tm l1 l2 c); assumption.
Qed.

(** X25 — the part of the vertex count that holds for every trace:
    the vertices start at [(0, source_depth)], there is one label less
    than vertices, and at most one vertex more than layers from the
    source layer on. *)
Lemma vertex_count_bound (m : model) (a d : value) (xs ys : list value)
  (lab : list (value * R)) :
  trace_ray m a d = Ok ((xs, ys), lab) ->
  nth_error xs 0 = Some (VInt 0) /\ nth_error ys 0 = Some d /\
  List.length xs = List.length ys /\
  List.length lab = (List.length xs - 1)%nat /\
  (List.length xs <= S (List.length (source_suffix m d)))%nat.
Proof.
  intros H.
  pose proof (trace_ray_lengths _ _ _ _ _ _ H) as (Hx & Hy & Hle).
  apply trace_ray_shape in H. destruct H as (lv & _ & -> & ->).
  cbn [nth_error]. repeat split; cbn [List.length] in *; lia.
Qed.

(** X26 — the count is exactly one vertex more than layers from the
    source layer on when [count_angle] returns no value equal to [-2],
    be it the mark of a critical angle or a refraction angle of -2
    degrees. *)
Lemma vertex_count_exact (m : model) (a d : value) (xs ys : list value)
  (lab : list (value * R)) :
  trace_ray m a d = Ok ((xs, ys), lab) ->
  (forall (k : nat) (angle : value) (time : R) (l1 l2 : layer) (cur' : value),
     nth_error lab k = Some (angle, time) ->
     nth_error (source_suffix m d) k = Some l1 ->
     nth_error (source_suffix m d) (S k) = Some l2 ->
     refraction angle l1 l2 cur' -> py_eq cur' (VInt (-2)) = false) ->
  List.length xs = S (List.length (source_suffix m d)) /\
  List.length lab = List.length (source_suffix m d).
Proof.
  intros H Hno.
  pose proof (trace_ray_lengths _ _ _ _ _ _ H) as (Hx & _ & _).
  apply trace_ray_traversal in H. destruct H as (lv & _ & _ & _ & Hsuf).
  rewrite Hx. destruct (source_suffix m d) as [| l rest].
  - destruct Hsuf as [_ ->]. auto.
  - destruct Hsuf as (b & th & _ & _ & Htr).
    rewrite (traversal_complete _ _ _ _ _ _ Htr Hno). auto.
Qed.

(** ** No division by zero behind the velocity check *)

Create HintDb nzd.

Lemma nzd_ok {A : Type} (a : A) : no_zero_division (Ok a).
Proof. discriminate. Qed.

Lemma nzd_bind {A B : Type} (c : result A) (k : A -> result B) :
  no_zero_division c ->
  (forall a, c = Ok a -> no_zero_division (k a)) ->
  no_zero_division (bind c k).
Proof.
  intros Hc Hk. destruct c as [a | e]; cbn.
  - apply Hk. reflexivity.
  - intros H. apply Hc. injection H as ->. reflexivity.
Qed.

Lemma nzd_getitem {A : Type} (l : list A) (i : nat) :
  no_zero_division (getitem l i).
Proof. unfold getitem. destruct (nth_error l i); discriminate. Qed.

Lemma nzd_as_index (v : value) : no_zero_division (as_index v).
Proof. destruct v; discriminate. Qed.

Lemma nzd_to_float (v : value) : no_zero_division (to_float v).
Proof. destruct v; discriminate. Qed.

Lemma nzd_py_sub (a b : value) : no_zero_division (py_sub a b).
Proof. destruct a, b; discriminate. Qed.

#[local] Hint Resolve nzd_ok nzd_getitem nzd_as_index nzd_to_float
  nzd_py_sub : nzd.

Ltac nzd_step :=
  apply nzd_bind; [auto with nzd | intros ? ?].

Lemma nzd_fabs (v : value) : no_zero_division (fabs v).
Proof. unfold fabs. nzd_step. auto with nzd. Qed.

Lemma nzd_radians (v : value) : no_zero_division (radians v).
Proof. unfold radians. nzd_step. auto with nzd. Qed.

#[local] Hint Resolve nzd_fabs nzd_radians : nzd.

Lemma nzd_get_thickness (b t : value) : no_zero_division (get_thickness b t).
Proof. unfold get_thickness. nzd_step. auto with nzd. Qed.

Lemma nzd_find_x_length (cur : value) (th : R) :
  no_zero_division (find_x_length cur th).
Proof. unfold find_x_length. nzd_step. auto with nzd. Qed.

Lemma nzd_source_in_range (l : layer) (d : value) :
  no_zero_division (source_in_range l d).
Proof. unfold source_in_range. do 4 nzd_step. auto with nzd. Qed.

#[local] Hint Resolve nzd_get_thickness nzd_find_x_length
  nzd_source_in_range : nzd.

Lemma nzd_is_layer_exist_source (l : layer) (d : value) :
  no_zero_division (is_layer_exist_source l d).
Proof.
  unfold is_layer_exist_source. nzd_step. destruct (negb a); auto with nzd.
Qed.

Lemma nzd_py_float_add (r : R) (v : value) :
  no_zero_division (py_float_add r v).
Proof. unfold py_float_add. nzd_step. auto with nzd. Qed.

Lemma nzd_py_float_div (r : R) (v : value) :
  positive v -> no_zero_division (py_float_div r v).
Proof.
  intros Hv. apply positive_real in Hv. destruct Hv as [Hn Hpos].
  unfold py_float_div. rewrite (to_float_numeric _ Hn). cbn [bind].
  replace (Reqb (real_of v) 0) with false
    by (symmetry; apply Reqb_false; lra).
  auto with nzd.
Qed.

Lemma nzd_count_angle (cur lower upper : value) :
  positive lower -> no_zero_division (count_angle cur lower upper).
Proof.
  intros Hv. apply positive_real in Hv. destruct Hv as [Hn Hpos].
  unfold count_angle, py_truediv. nzd_step. apply nzd_bind.
  - nzd_step. rewrite (to_float_numeric _ Hn). cbn [bind].
    replace (Reqb (real_of lower) 0) with false
      by (symmetry; apply Reqb_false; lra).
    auto with nzd.
  - intros q _. cbv zeta.
    match goal with
    | |- context [Rltb 1 ?x] => destruct (Rltb 1 x)
    end; auto with nzd.
Qed.

#[local] Hint Resolve nzd_is_layer_exist_source nzd_py_float_add : nzd.

Lemma py_gt0_positive (v : value) : py_gt0 v = Ok true -> positive v.
Proof.
  destruct v; cbn; intros H; try discriminate; injection H as H.
  - apply Z.ltb_lt. exact H.
  - apply Rltb_true. exact H.
Qed.

Lemma speed_correct_cons (l : layer) (rest : list layer) :
  is_speed_data_correct (l :: rest) = Ok true ->
  (exists v, getitem l 2 = Ok v /\ positive v) /\
  is_speed_data_correct rest = Ok true.
Proof.
  cbn [is_speed_data_correct]. intros H. bind_inv H. bind_inv H.
  destruct a0; [| discriminate].
  split; [| exact H]. exists a. split; [exact E |].
  apply py_gt0_positive. exact E0.
Qed.

Lemma nzd_loop_body (a d : value) (l : layer) (next : option layer)
  (s : loop_state) :
  (exists v, getitem l 2 = Ok v /\ positive v) ->
  no_zero_division (loop_body a d l next s).
Proof.
  intros (v & Hv & Hpos). unfold loop_body.
  nzd_step. rename a0 into is_exist.
  do 3 nzd_step. cbv zeta.
  apply nzd_bind.
  { destruct (is_exist && Nat.eqb (existing_counter s) 0); [| auto with nzd].
    nzd_step. auto with nzd. }
  intros th _.
  match goal with
  | |- no_zero_division (if ?c then _ else _) => destruct c
  end; [auto with nzd |].
  nzd_step.
  apply nzd_bind; [auto with nzd | intros speed Hspeed].
  assert (speed = v) as -> by congruence.
  apply nzd_bind; [apply nzd_py_float_div; exact Hpos | intros time _].
  destruct next as [l' |]; [| auto with nzd].
  apply nzd_bind; [auto with nzd | intros lower Hlower].
  assert (lower = v) as -> by congruence.
  nzd_step.
  apply nzd_bind; [apply nzd_count_angle; exact Hpos | intros cur' _].
  destruct (py_eq cur' (VInt (-2))); auto with nzd.
Qed.

Lemma nzd_trace_loop (a d : value) (ls : list layer) :
  is_speed_data_correct ls = Ok true ->
  forall s, no_zero_division (trace_loop a d ls s).
Proof.
  induction ls as [| l rest IH]; intros Hs s; cbn [trace_loop].
  - auto with nzd.
  - apply speed_correct_cons in Hs. destruct Hs as [Hl Hrest].
    apply nzd_bind; [apply nzd_loop_body; exact Hl |].
    intros [s' | s'] _; [apply IH; exact Hrest | auto with nzd].
Qed.

Lemma nzd_coordinates_loop (lvs : list (R * R)) :
  forall (i : nat) (x y : list value),
    no_zero_division (coordinates_loop lvs i x y).
Proof.
  induction lvs as [| [dx dy] rest IH]; intros i x y;
    cbn [coordinates_loop].
  - auto with nzd.
  - do 4 nzd_step. apply IH.
Qed.

Lemma nzd_trace_ray (m : model) (a d : value) :
  is_speed_data_correct m = Ok true ->
  no_zero_division (trace_ray m a d).
Proof.
  intros Hs. unfold trace_ray, calculate_ray_tracing_values.
  apply nzd_bind.
  { apply nzd_bind; [apply nzd_trace_loop; exact Hs | auto with nzd]. }
  intros vals _. apply nzd_bind; [apply nzd_coordinates_loop |].
  auto with nzd.
Qed.

(** ** The entry point *)

Lemma short_layer_count (m : model) (l : layer) :
  In l m -> List.length l <> 3%nat -> is_layer_data_count_correct m = false.
Proof.
  intros Hin Hlen.
  destruct (is_layer_data_count_correct m) eqn:E; [| reflexivity].
  apply count_correct_length in E. rewrite Forall_forall in E.
  specialize (E l Hin). contradiction.
Qed.

(** C5 — validation order and short-circuit.  The entry point is the
    first-failing evaluation of the four checks in the order layer
    completeness, numeric type, velocity positivity, source
    containment, followed by the trace: the outcome is the error kind
    of the first check that fails, whatever the later checks would do
    (even raise).  A model containing a layer with two fields gives
    [MalformedLayer] whatever the other fields, the angle and the depth
    are.  A traced outcome occurs only when the four checks have passed
    and [trace_ray] has returned it. *)
Theorem validation_order_short_circuit (m : model) (a d : value) :
  check_input_data_correctness m a d =
    first_failing
      [(Ok (is_layer_data_count_correct m), MalformedLayer);
       (is_input_data_integer_or_float m a d, NonNumericInput);
       (is_speed_data_correct m, InvalidVelocity);
       (is_source_occur_in_seismic_model m d, SourceOutOfBounds)]
      (r <- trace_ray m a d ;; Ok (Traced r)) /\
  (forall l, In l m -> List.length l = 2%nat ->
     check_input_data_correctness m a d = Ok (Rejected MalformedLayer)) /\
  (forall r, check_input_data_correctness m a d = Ok (Traced r) ->
     is_layer_data_count_correct m = true /\
     is_input_data_integer_or_float m a d = Ok true /\
     is_speed_data_correct m = Ok true /\
     is_source_occur_in_seismic_model m d = Ok true /\
     trace_ray m a d = Ok r).
Proof.
  split; [| split].
  - unfold check_input_data_correctness. cbn [first_failing bind].
    destruct (is_layer_data_count_correct m); cbn [negb]; [| reflexivity].
    destruct (is_input_data_integer_or_float m a d) as [[|] | e];
      cbn [bind negb]; try reflexivity.
    destruct (is_speed_data_correct m) as [[|] | e];
      cbn [bind negb]; try reflexivity.
    destruct (is_source_occur_in_seismic_model m d) as [[|] | e];
      cbn [bind negb]; reflexivity.
  - intros l Hin Hlen. unfold check_input_data_correctness.
    rewrite (short_layer_count m l Hin) by lia. reflexivity.
  - intros r. unfold check_input_data_correctness.
    destruct (is_layer_data_count_correct m); cbn [negb]; [| discriminate].
    destruct (is_input_data_integer_or_float m a d) as [[|] | e];
      cbn [bind negb]; try discriminate.
    destruct (is_speed_data_correct m) as [[|] | e];
      cbn [bind negb]; try discriminate.
    destruct (is_source_occur_in_seismic_model m d) as [[|] | e];
      cbn [bind negb]; try discriminate.
    destruct (trace_ray m a d) as [r' | e]; cbn [bind]; [| discriminate].
    intros H. injection H as <-. repeat split.
Qed.


(** C6, at an input whose fields, angle and depth are all integers:
    the numeric type check answers [False] and the entry point
    reports [NonNumericInput]. *)
Theorem numeric_input_rejected :
  is_input_data_integer_or_float example_single (VInt 0) (VInt 50)
  = Ok false /\
  check_input_data_correctness example_single (VInt 0) (VInt 50)
  = Ok (Rejected NonNumericInput).
Proof.
  split.
  - apply type_check_always_false. reflexivity.
  - rewrite entry_point_outcomes. reflexivity.
Qed.

(** C7 — discriminated outcome.  For every input the entry point
    returns an outcome and raises nothing; and whenever the velocity
    check passes, tracing does not end in a division by zero. *)
Theorem entry_point_never_raises (m : model) (a d : value) :
  (exists o, check_input_data_correctness m a d = Ok o) /\
  (is_speed_data_correct m = Ok true ->
   trace_ray m a d <> Raise ZeroDivisionError).
Proof.
  split.
  - rewrite entry_point_outcomes. eexists. reflexivity.
  - apply nzd_trace_ray.
Qed.

(** ** Source containment *)

Lemma in_py_range (a b z : Z) : In z (py_range a b) <-> (a <= z < b)%Z.
Proof.
  unfold py_range. rewrite in_map_iff. split.
  - intros (k & <- & Hk). apply in_seq in Hk. lia.
  - intros H. exists (Z.to_nat (z - a)). split; [lia |].
    apply in_seq. lia.
Qed.

(** [d in range(a, b)] for a float [d]: some integer of the range
    equals it. *)
Lemma float_in_range (r : R) (a b : Z) :
  py_in_range (VFloat r) a b = true <->
  exists z, (a <= z < b)%Z /\ r = IZR z.
Proof.
  cbn [py_in_range]. rewrite existsb_exists. split.
  - intros (z & Hin & Heq). apply in_py_range in Hin.
    cbn [py_eq] in Heq. apply Reqb_true in Heq. eauto.
  - intros (z & Hz & Heq). exists z. split; [apply in_py_range; exact Hz |].
    cbn [py_eq]. apply Reqb_true. exact Heq.
Qed.

(** For an integer depth the test is the half-open interval test. *)
Lemma int_in_range (z a b : Z) :
  py_in_range (VInt z) a b = true <-> (a <= z < b)%Z.
Proof. cbn [py_in_range]. lia. Qed.

Lemma source_in_range_valid (l : layer) (z : Z) :
  valid_layer l ->
  exists t b,
    top_of l = IZR t /\ bottom_of l = IZR b /\
    source_in_range l (VInt z) = Ok ((t <=? z)%Z && (z <? b)%Z).
Proof.
  intros Hl. destruct (valid_layer_inv l Hl) as (t & b & v & -> & _).
  exists t, b. repeat split.
Qed.

Lemma int_interval (t b z : Z) :
  ((t <=? z)%Z && (z <? b)%Z = true) <-> (IZR t <= IZR z < IZR b)%R.
Proof.
  rewrite andb_true_iff, Z.leb_le, Z.ltb_lt. split; intros [H1 H2].
  - split; [apply IZR_le | apply IZR_lt]; assumption.
  - split; [apply le_IZR | apply lt_IZR]; assumption.
Qed.

(** X5 — on integers the code is right: with integer bounds and an
    integer depth, the containment check succeeds exactly when some
    layer satisfies [top <= depth < bottom]. *)
Lemma source_occurs_integers (m : model) (z : Z) :
  Forall valid_layer m ->
  is_source_occur_in_seismic_model m (VInt z) = Ok true <->
  Exists (fun l => top_of l <= IZR z < bottom_of l)%R m.
Proof.
  induction 1 as [| l rest Hl _ IH]; cbn [is_source_occur_in_seismic_model].
  - split; [discriminate | intros H; inversion H].
  - destruct (source_in_range_valid l z Hl) as (t & b & Ht & Hb & ->).
    cbn [bind]. rewrite Exists_cons, Ht, Hb, <- int_interval.
    destruct ((t <=? z)%Z && (z <? b)%Z).
    + split; auto.
    + rewrite IH. split; [auto | intros [H | H]; [discriminate | exact H]].
Qed.

(** C4, at a fractional depth and at float bounds.  The depth 2.5 lies
    in the half-open interval [[0, 5)] of the only layer of
    [example_fractional], yet the containment check answers [False]
    and the tracer finds no source layer; with the same bounds given
    as floats the check raises [TypeError]. *)
Theorem fractional_depth_not_contained :
  (0 <= 2.5 < 5)%R /\
  is_source_occur_in_seismic_model example_fractional (VFloat 2.5)
  = Ok false /\
  source_suffix example_fractional (VFloat 2.5) = [] /\
  is_source_occur_in_seismic_model example_float_bounds (VFloat 2.5)
  = Raise TypeError.
Proof.
  assert (py_in_range (VFloat 2.5) 0 5 = false) as Hout.
  { destruct (py_in_range (VFloat 2.5) 0 5) eqn:E; [| reflexivity].
    apply float_in_range in E. destruct E as (z & _ & Hz).
    assert (IZR 5 = IZR (2 * z)) as H by (rewrite mult_IZR; lra).
    apply eq_IZR in H. lia. }
  split; [lra |]. split; [| split].
  - unfold example_fractional. cbn [is_source_occur_in_seismic_model].
    unfold source_in_range. cbn [getitem nth_error bind as_index].
    rewrite Hout. reflexivity.
  - unfold example_fractional. cbn [source_suffix].
    unfold is_layer_exist_source, source_in_range.
    cbn [getitem nth_error bind as_index]. rewrite Hout. reflexivity.
  - reflexivity.
Qed.

(** ** Worked examples *)

Ltac trace_unfold :=
  unfold trace_ray, calculate_ray_tracing_values, create_coordinates,
    initial_state;
  cbn [trace_loop]; unfold loop_body, is_layer_exist_source, source_in_range.

Ltac trace_cbn :=
  cbn [getitem nth_error bind as_index py_in_range Z.leb Z.ltb Z.compare
       Pos.compare Pos.compare_cont andb negb existing_counter Nat.eqb
       hd_error get_thickness py_sub fabs to_float Z.sub Z.add Z.opp
       Z.pos_sub Pos.add Pos.succ Pos.pred_double Z.double Z.succ_double
       Z.pred_double find_x_length radians count_ray_duration py_float_div
       py_float_add cur_angle layers_values label_values app count_angle
       py_truediv coordinates_loop fst snd real_of py_eq Z.eqb Pos.eqb].

Lemma Reqb_neq (x y : R) : x <> y -> Reqb x y = false.
Proof. apply Reqb_false. Qed.

Lemma Reqb_eq (x y : R) : x = y -> Reqb x y = true.
Proof. apply Reqb_true. Qed.

Lemma Rltb_ge (x y : R) : (y <= x)%R -> Rltb x y = false.
Proof. apply Rltb_false. Qed.

Lemma sin_30 : sin (30 * (PI / 180)) = (1 / 2)%R.
Proof.
  replace (30 * (PI / 180))%R with (PI / 6)%R by field. apply sin_PI6.
Qed.

Lemma Rabs_sin_le_1 (x : R) : (Rabs (sin x) <= 1)%R.
Proof. apply Rabs_le. pose proof (SIN_bound x). lra. Qed.

(** Refraction into a layer of the same velocity leaves an angle of
    -2 degrees as it is. *)
Lemma minus_two_refracted :
  degrees (asin (sin (-2 * (PI / 180)) * (1 / 1))) = (-2)%R.
Proof.
  replace (sin (-2 * (PI / 180)) * (1 / 1))%R with (sin (-2 * (PI / 180)))
    by field.
  rewrite asin_sin.
  - unfold degrees. pose proof PI_neq0. field. assumption.
  - pose proof PI_RGT_0. lra.
Qed.

Lemma asin_quarter_not_minus_two : degrees (asin (1 / 4)) <> (-2)%R.
Proof.
  intros H.
  assert (asin (1 / 4) = - (PI / 90))%R as Ha.
  { rewrite <- (radians_degrees (asin (1 / 4))), H. field. }
  assert (sin (asin (1 / 4)) = 1 / 4)%R as Hs by (apply sin_asin; lra).
  rewrite Ha, sin_neg in Hs.
  assert (0 < sin (PI / 90))%R.
  { apply sin_gt_0; pose proof PI_RGT_0; lra. }
  lra.
Qed.

(** The first scenario of the specification: one layer from 0 to 100
    with velocity 2000, the source at depth 50, vertical incidence. *)
Lemma example_single_trace :
  trace_ray example_single (VInt 0) (VInt 50)
  = Ok (([VInt 0; VFloat 0], [VInt 50; VFloat 100]), [(VInt 0, 0.025%R)]).
Proof.
  unfold example_single. trace_unfold. trace_cbn.
  rewrite (Reqb_neq 2000 0) by lra. trace_cbn.
  assert (tan (0 * (PI / 180)) * Rabs 50 = 0)%R as Hx
    by (rewrite Rmult_0_l, tan_0; ring).
  rewrite Hx. unfold find_ray_length.
  rewrite (Rabs_pos_eq 50) by lra.
  replace (50 ^ 2 + 0 ^ 2)%R with (50 ^ 2)%R by ring.
  rewrite sqrt_pow2 by lra.
  replace (0 + 0)%R with 0%R by ring.
  replace (50 + 50)%R with 100%R by ring.
  replace (50 / 2000)%R with 0.025%R by lra.
  reflexivity.
Qed.

(** Two layers of equal velocity entered at -2 degrees: the loop
    leaves after the first layer. *)
Lemma example_equal_speed_trace :
  trace_ray example_equal_speed (VInt (-2)) (VInt 0)
  = Ok (([VInt 0; VFloat (tan (-2 * (PI / 180)) * 10)],
         [VInt 0; VFloat 10]),
        [(VInt (-2),
          (find_ray_length 10 (tan (-2 * (PI / 180)) * 10) / 1)%R)]).
Proof.
  unfold example_equal_speed. trace_unfold. trace_cbn.
  rewrite (Reqb_neq 1 0) by lra. trace_cbn.
  rewrite Rltb_ge.
  2:{ replace (sin (-2 * (PI / 180)) * (1 / 1))%R
        with (sin (-2 * (PI / 180))) by field.
      apply Rabs_sin_le_1. }
  trace_cbn. rewrite minus_two_refracted.
  rewrite (Reqb_eq (-2) (-2)) by reflexivity. trace_cbn.
  rewrite (Rabs_pos_eq 10) by lra. rewrite !Rplus_0_r. reflexivity.
Qed.

(** A ray entering a twice slower layer at 30 degrees is refracted to
    [asin(1/4)]. *)
Lemma example_refracting_trace :
  exists xs ys t1 t2,
    trace_ray example_refracting (VInt 30) (VInt 0)
    = Ok ((xs, ys),
          [(VInt 30, t1); (VFloat (degrees (asin (1 / 4))), t2)]).
Proof.
  unfold example_refracting. trace_unfold. trace_cbn.
  rewrite (Reqb_neq 2 0) by lra. trace_cbn.
  rewrite sin_30.
  replace (1 / 2 * (1 / 2))%R with (1 / 4)%R by field.
  rewrite Rltb_ge by (rewrite Rabs_pos_eq; lra).
  trace_cbn. rewrite (Reqb_neq _ (-2)) by apply asin_quarter_not_minus_two.
  trace_cbn. rewrite (Reqb_neq 1 0) by lra. trace_cbn.
  do 4 eexists. reflexivity.
Qed.

Lemma example_equal_speed_valid (a : value) :
  numeric a -> valid_input example_equal_speed a (VInt 0).
Proof.
  intros Ha. split; [| split; [exact Ha | reflexivity]].
  repeat constructor; cbn; lia.
Qed.

(** C3, at two layers of equal velocity entered at -2 degrees.  The
    input is valid, the source layer is the first of N = 2 layers and
    no critical angle occurs at the only boundary ([|sin_beta| <= 1]),
    yet the trace has 2 vertices and 1 label, not N + 1 = 3
    vertices. *)
Theorem vertex_count_short_without_critical_angle :
  valid_input example_equal_speed (VInt (-2)) (VInt 0) /\
  List.length (source_suffix example_equal_speed (VInt 0)) = 2%nat /\
  (Rabs (sin_beta_at (VInt (-2))
           [VInt 0; VInt 10; VInt 1] [VInt 10; VInt 20; VInt 1]) <= 1)%R /\
  exists xs ys lab,
    trace_ray example_equal_speed (VInt (-2)) (VInt 0) = Ok ((xs, ys), lab) /\
    List.length xs = 2%nat /\ List.length ys = 2%nat /\
    List.length lab = 1%nat.
Proof.
  split; [apply example_equal_speed_valid; exact I |].
  split; [reflexivity |]. split.
  - unfold sin_beta_at, sin_deg, velocity. cbn [nth real_of].
    replace (sin (-2 * (PI / 180)) * (1 / 1))%R
      with (sin (-2 * (PI / 180))) by field.
    apply Rabs_sin_le_1.
  - do 3 eexists. split; [exact example_equal_speed_trace |].
    repeat split.
Qed.

(** ** The theorems at work *)

(** A valid single-layer input: the entry point returns an outcome,
    the velocity check passes and tracing divides by no zero. *)
Lemma entry_point_witness :
  (exists o,
     check_input_data_correctness example_single (VInt 0) (VInt 50) = Ok o) /\
  is_speed_data_correct example_single = Ok true /\
  trace_ray example_single (VInt 0) (VInt 50) <> Raise ZeroDivisionError.
Proof.
  destruct (entry_point_never_raises example_single (VInt 0) (VInt 50))
    as [Hout Hdiv].
  split; [exact Hout |]. split; [reflexivity |].
  apply Hdiv. reflexivity.
Defined.

(** The short-circuit at work: the second layer of
    [example_short_layer] has two fields, a string and [None], the
    angle is a string, and the outcome is [MalformedLayer]. *)
Lemma short_layer_rejected :
  check_input_data_correctness example_short_layer (VStr "steep") VNone
  = Ok (Rejected MalformedLayer).
Proof.
  apply (proj1 (proj2 (validation_order_short_circuit
                         example_short_layer (VStr "steep") VNone))
           [VStr "top"; VNone]).
  - right; left. reflexivity.
  - reflexivity.
Defined.

(** * Further properties of the code *)

(** ** The validator, check by check *)

Lemma check_layer_fields_short (l : layer) :
  (List.length l < 3)%nat ->
  check_layer_fields l [0; 1; 2]%nat = Raise IndexError.
Proof.
  destruct l as [| a [| b [| c rest]]]; cbn [List.length]; intros H;
    try lia; unfold check_layer_fields, getitem; cbn [nth_error bind];
    rewrite ?or_float_true; reflexivity.
Qed.

Lemma check_layer_fields_long (l : layer) :
  (3 <= List.length l)%nat ->
  check_layer_fields l [0; 1; 2]%nat = Ok true.
Proof.
  destruct l as [| a [| b [| c rest]]]; cbn [List.length]; intros H;
    try lia. unfold check_layer_fields, getitem; cbn [nth_error bind].
  rewrite !or_float_true. reflexivity.
Qed.

Lemma check_layers_types_long (m : model) :
  Forall (fun l => 3 <= List.length l)%nat m ->
  check_layers_types m = Ok true.
Proof.
  induction 1 as [| l rest Hl _ IH]; cbn [check_layers_types].
  - reflexivity.
  - rewrite (check_layer_fields_long l Hl). exact IH.
Qed.

Lemma check_layers_types_short (m : model) :
  Exists (fun l => List.length l < 3)%nat m ->
  check_layers_types m = Raise IndexError.
Proof.
  induction m as [| l rest IH]; intros H; [inversion H |].
  cbn [check_layers_types].
  destruct (Nat.lt_ge_cases (List.length l) 3) as [Hl | Hl].
  - rewrite (check_layer_fields_short l Hl). reflexivity.
  - rewrite (check_layer_fields_long l Hl). cbn [bind].
    apply IH. inversion H; subst; [lia | assumption].
Qed.

(** X1 — the numeric type check never answers [True]: it answers
    [False] when every layer has at least three fields, whatever the
    fields, the angle and the depth are, and raises [IndexError] when
    some layer has fewer. *)
Theorem type_check_never_true (m : model) (a d : value) :
  (Forall (fun l => 3 <= List.length l)%nat m ->
   is_input_data_integer_or_float m a d = Ok false) /\
  (Exists (fun l => List.length l < 3)%nat m ->
   is_input_data_integer_or_float m a d = Raise IndexError) /\
  is_input_data_integer_or_float m a d <> Ok true.
Proof.
  split; [| split].
  - intros H. unfold is_input_data_integer_or_float.
    rewrite (check_layers_types_long m H). cbn [bind negb].
    rewrite or_float_true. reflexivity.
  - intros H. unfold is_input_data_integer_or_float.
    rewrite (check_layers_types_short m H). reflexivity.
  - unfold is_input_data_integer_or_float.
    destruct (check_layers_types m) as [[|] | e]; cbn [bind negb];
      rewrite ?or_float_true; discriminate.
Qed.

(** X2 — the entry point never traces: when every layer has exactly
    three fields its outcome is [NonNumericInput], otherwise it is
    [MalformedLayer]; no input reaches the velocity check, the
    containment check or [trace_ray]. *)
Theorem entry_point_never_traces (m : model) (a d : value) :
  (Forall (fun l => List.length l = 3%nat) m ->
   check_input_data_correctness m a d = Ok (Rejected NonNumericInput)) /\
  (Exists (fun l => List.length l <> 3%nat) m ->
   check_input_data_correctness m a d = Ok (Rejected MalformedLayer)) /\
  (forall o, check_input_data_correctness m a d = Ok o ->
     o = Rejected MalformedLayer \/ o = Rejected NonNumericInput).
Proof.
  rewrite entry_point_outcomes. split; [| split].
  - intros H. apply count_correct_length in H. rewrite H. reflexivity.
  - intros H. apply Exists_exists in H. destruct H as (l & Hin & Hlen).
    rewrite (short_layer_count m l Hin Hlen). reflexivity.
  - intros o H. injection H as <-.
    destruct (is_layer_data_count_correct m); auto.
Qed.

(** X3 — the velocity check answers [True] exactly when every layer
    has a third field that is an [int] or a [float] greater than 0
    (so it does for the empty model). *)
Theorem speed_check_true_iff (m : model) :
  is_speed_data_correct m = Ok true <->
  Forall (fun l => exists v, nth_error l 2 = Some v /\ positive v) m.
Proof.
  induction m as [| l rest IH].
  - split; [constructor | reflexivity].
  - split.
    + intros H. apply speed_correct_cons in H.
      destruct H as [(v & Hv & Hpos) Hrest].
      constructor; [| apply IH; exact Hrest].
      exists v. split; [| exact Hpos].
      apply (getitem_nth _ _ _ VNone) in Hv. tauto.
    + intros H. inversion H as [| ? ? (v & Hv & Hpos) Hrest]; subst.
      cbn [is_speed_data_correct]. unfold getitem. rewrite Hv.
      cbn [bind].
      assert (py_gt0 v = Ok true) as ->.
      { destruct v; cbn in Hpos |- *; try contradiction; f_equal.
        - apply Z.ltb_lt. exact Hpos.
        - apply Rltb_true. exact Hpos. }
      cbn [bind]. apply IH. exact Hrest.
Qed.

(** X4 — the velocity check stops at the first layer whose velocity
    is not a positive number, whatever the layers after it hold: a
    number not above 0 gives [False], a value that is no number
    raises [TypeError], a missing third field raises [IndexError]. *)
Theorem speed_check_first_offender
  (good : list layer) (l : layer) (rest : list layer) :
  is_speed_data_correct good = Ok true ->
  (forall v, nth_error l 2 = Some v -> numeric v -> (real_of v <= 0)%R ->
     is_speed_data_correct (good ++ l :: rest) = Ok false) /\
  (forall v, nth_error l 2 = Some v -> ~ numeric v ->
     is_speed_data_correct (good ++ l :: rest) = Raise TypeError) /\
  (nth_error l 2 = None ->
     is_speed_data_correct (good ++ l :: rest) = Raise IndexError).
Proof.
  intros Hgood.
  assert (forall tail,
            is_speed_data_correct (good ++ tail) = is_speed_data_correct tail)
    as Hskip.
  { intros tail. induction good as [| g good IH]; [reflexivity |].
    apply speed_correct_cons in Hgood. destruct Hgood as [(v & Hv & Hp) Hg].
    cbn [app is_speed_data_correct]. rewrite Hv. cbn [bind].
    assert (py_gt0 v = Ok true) as ->.
    { destruct v; cbn in Hp |- *; try contradiction; f_equal.
      - apply Z.ltb_lt. exact Hp.
      - apply Rltb_true. exact Hp. }
    cbn [bind]. apply IH. exact Hg. }
  rewrite Hskip. cbn [is_speed_data_correct]. unfold getitem.
  split; [| split].
  - intros v Hv Hn Hle. rewrite Hv. cbn [bind].
    destruct v; cbn in Hn |- *; try contradiction.
    + assert ((0 <? z)%Z = false) as ->; [| reflexivity].
      apply Z.ltb_ge. apply le_IZR. exact Hle.
    + assert (Rltb 0 r = false) as ->; [| reflexivity].
      apply Rltb_false. exact Hle.
  - intros v Hv Hn. rewrite Hv. cbn [bind].
    destruct v; cbn in Hn |- *; try reflexivity; exfalso; apply Hn; exact I.
  - intros Hv. rewrite Hv. reflexivity.
Qed.

Lemma speed_check_first_offender_witness :
  is_speed_data_correct
    ([[VInt 0; VInt 10; VInt 1]]
       ++ [VInt 10; VInt 20; VInt 0] :: [[VStr "below"]]) = Ok false.
Proof.
  apply (proj1 (speed_check_first_offender
                  [[VInt 0; VInt 10; VInt 1]] [VInt 10; VInt 20; VInt 0]
                  [[VStr "below"]] eq_refl) (VInt 0)).
  - reflexivity.
  - exact I.
  - cbn. lra.
Defined.

(** ** Source containment, value by value *)

Lemma source_in_range_layer (l : layer) (d : value) :
  valid_layer l ->
  exists t b,
    top_of l = IZR t /\ bottom_of l = IZR b /\
    source_in_range l d = Ok (py_in_range d t b).
Proof.
  intros Hl. destruct (valid_layer_inv l Hl) as (t & b & v & -> & _).
  exists t, b. repeat split.
Qed.

Lemma source_occurs_integers_witness :
  is_source_occur_in_seismic_model example_critical (VInt 15) = Ok true <->
  Exists (fun l => top_of l <= IZR 15 < bottom_of l)%R example_critical.
Proof.
  apply source_occurs_integers. repeat constructor; cbn; lia.
Defined.

(** X7 — with integer bounds and a float depth, the containment check
    succeeds exactly when some layer satisfies [top <= depth < bottom]
    and the depth is a whole number: a fractional depth is in no
    layer. *)
Theorem source_occurs_floats (m : model) (r : R) :
  Forall valid_layer m ->
  is_source_occur_in_seismic_model m (VFloat r) = Ok true <->
  Exists (fun l => top_of l <= r < bottom_of l)%R m /\ exists z, r = IZR z.
Proof.
  assert (forall t b,
            py_in_range (VFloat r) t b = true <->
            (IZR t <= r < IZR b)%R /\ exists z, r = IZR z) as Hin.
  { intros t b. rewrite float_in_range. split.
    - intros (z & [H1 H2] & ->). split; [| exists z; reflexivity].
      split; [apply IZR_le | apply IZR_lt]; assumption.
    - intros ([H1 H2] & z & ->). exists z. split; [| reflexivity].
      split; [apply le_IZR | apply lt_IZR]; assumption. }
  induction 1 as [| l rest Hl _ IH]; cbn [is_source_occur_in_seismic_model].
  - split; [discriminate | intros [H _]; inversion H].
  - destruct (source_in_range_layer l (VFloat r) Hl) as (t & b & Ht & Hb & ->).
    cbn [bind]. rewrite Exists_cons, Ht, Hb.
    destruct (py_in_range (VFloat r) t b) eqn:E.
    + apply Hin in E. destruct E as [Hint Hz]. split; auto.
    + rewrite IH. split.
      * intros [Hex Hz]. auto.
      * intros [[Hint | Hex] Hz]; [| auto].
        assert (py_in_range (VFloat r) t b = true) as Habs
          by (apply Hin; auto).
        congruence.
Qed.

Lemma source_occurs_floats_witness :
  is_source_occur_in_seismic_model example_critical (VFloat 15) = Ok true <->
  Exists (fun l => top_of l <= 15 < bottom_of l)%R example_critical /\
  exists z, 15%R = IZR z.
Proof.
  apply source_occurs_floats. repeat constructor; cbn; lia.
Defined.

(** X8 — a top or a bottom that is no [int] makes [range] raise: when
    the first layer has such a bound, the containment check and the
    tracer both raise [TypeError], whatever the depth, the angle and
    the other layers are. *)
Theorem non_integer_bound_raises (l : layer) (rest : list layer)
  (a d t b : value) :
  nth_error l 0 = Some t -> nth_error l 1 = Some b ->
  type_is_int t = false \/ type_is_int b = false ->
  is_source_occur_in_seismic_model (l :: rest) d = Raise TypeError /\
  trace_ray (l :: rest) a d = Raise TypeError.
Proof.
  intros Ht Hb Hbad.
  assert (source_in_range l d = Raise TypeError) as Hsrc.
  { unfold source_in_range, getitem. rewrite Ht, Hb. cbn [bind].
    destruct t; cbn in Hbad |- *; try reflexivity.
    destruct b; cbn in Hbad |- *; try reflexivity.
    destruct Hbad; discriminate. }
  split.
  - cbn [is_source_occur_in_seismic_model]. rewrite Hsrc. reflexivity.
  - unfold trace_ray, calculate_ray_tracing_values. cbn [trace_loop].
    unfold loop_body. rewrite is_layer_exist_source_eq, Hsrc. reflexivity.
Qed.

Lemma non_integer_bound_raises_witness :
  is_source_occur_in_seismic_model example_float_bounds (VFloat 2.5)
  = Raise TypeError /\
  trace_ray example_float_bounds (VInt 0) (VFloat 2.5) = Raise TypeError.
Proof.
  apply (non_integer_bound_raises _ [] (VInt 0) (VFloat 2.5)
           (VFloat 0) (VFloat 5)).
  - reflexivity.
  - reflexivity.
  - left. reflexivity.
Defined.

(** ** Labels and counts *)

Lemma getitem_in_bounds {A : Type} (l : list A) (i : nat) :
  (i < List.length l)%nat ->
  exists v, getitem l i = Ok v /\ nth_error l i = Some v.
Proof.
  intros Hi. unfold getitem.
  destruct (nth_error l i) as [v |] eqn:E.
  - exists v. auto.
  - apply nth_error_None in E. lia.
Qed.

(** The loop of [create_labels] from index [i] on, on lists of the
    lengths a trace gives them. *)
Lemma labels_loop_seq (xs ys : list value) (lab : list (value * R)) :
  List.length xs = S (List.length lab) ->
  List.length ys = S (List.length lab) ->
  forall (len i : nat),
    (i + len = S (List.length lab))%nat ->
    exists anns,
      labels_loop (xs, ys) lab (seq i len) = Ok anns /\
      List.length anns = len /\
      (forall j angle time,
         nth_error lab (i + j) = Some (angle, time) ->
         exists x y,
           nth_error xs (i + j) = Some x /\ nth_error ys (i + j) = Some y /\
           nth_error anns j = Some (Annotated x y angle time)) /\
      ((1 <= len)%nat ->
       exists x y,
         nth_error xs (List.length lab) = Some x /\
         nth_error ys (List.length lab) = Some y /\
         nth_error anns (len - 1) = Some (Endpoint x y)).
Proof.
  intros Hx Hy. induction len as [| len IH]; intros i Hi.
  - exists []. cbn. repeat split; try lia.
    intros j angle time Hj.
    assert (nth_error lab (i + j) <> None) as Hs by congruence.
    apply nth_error_Some in Hs. lia.
  - cbn [seq labels_loop fst snd]. rewrite Hx.
    replace (S (List.length lab) - 1)%nat with (List.length lab) by lia.
    destruct (getitem_in_bounds xs i) as (x & Egx & Hxi); [lia |].
    destruct (getitem_in_bounds ys i) as (y & Egy & Hyi); [lia |].
    rewrite Egx, Egy. cbn [bind].
    destruct (IH (S i)) as (anns & Eanns & Hlen & Hlabs & Hend); [lia |].
    destruct (Nat.eqb i (List.length lab)) eqn:Ei; cbn [negb].
    + apply Nat.eqb_eq in Ei. cbn [bind]. rewrite Eanns. cbn [bind].
      assert (len = 0%nat) as -> by lia.
      destruct anns; [| discriminate Hlen].
      exists [Endpoint x y]. split; [reflexivity |].
      split; [reflexivity |]. split.
      * intros j angle time Hj.
        assert (nth_error lab (i + j) <> None) as Hs by congruence.
        apply nth_error_Some in Hs. lia.
      * intros _. exists x, y. subst i. cbn. auto.
    + apply Nat.eqb_neq in Ei.
      destruct (getitem_in_bounds lab i) as ([ang tm] & Egl & Hli); [lia |].
      rewrite Egl. cbn [bind fst snd]. rewrite Eanns. cbn [bind].
      exists (Annotated x y ang tm :: anns).
      split; [reflexivity |]. split; [cbn; lia |]. split.
      * intros j angle time Hj. destruct j as [| j].
        -- rewrite Nat.add_0_r in *. rewrite Hli in Hj.
           injection Hj as <- <-. exists x, y. cbn. auto.
        -- replace (i + S j)%nat with (S i + j)%nat in * by lia.
           destruct (Hlabs j angle time Hj) as (x' & y' & H1 & H2 & H3).
           exists x', y'. cbn [nth_error]. auto.
      * intros _. destruct Hend as (x' & y' & H1 & H2 & H3); [lia |].
        exists x', y'. split; [exact H1 |]. split; [exact H2 |].
        replace (S len - 1)%nat with (S (len - 1))%nat by lia.
        exact H3.
Qed.

(** X23 — the labels of a trace are created without [IndexError]:
    after a successful trace [create_labels] annotates every vertex
    once, in order; the vertex of every label carries that label's
    angle and time, and the last vertex carries its coordinates
    only. *)
Theorem labels_created_for_every_vertex (m : model) (a d : value)
  (xs ys : list value) (lab : list (value * R)) :
  trace_ray m a d = Ok ((xs, ys), lab) ->
  exists anns,
    trace_ray_labels m a d = Ok anns /\
    List.length anns = List.length xs /\
    (forall k angle time,
       nth_error lab k = Some (angle, time) ->
       exists x y,
         nth_error xs k = Some x /\ nth_error ys k = Some y /\
         nth_error anns k = Some (Annotated x y angle time)) /\
    (exists x y,
       nth_error xs (List.length lab) = Some x /\
       nth_error ys (List.length lab) = Some y /\
       nth_error anns (List.length lab) = Some (Endpoint x y)).
Proof.
  intros H.
  pose proof (trace_ray_lengths _ _ _ _ _ _ H) as (Hx & Hy & _).
  destruct (labels_loop_seq xs ys lab Hx Hy (S (List.length lab)) 0)
    as (anns & Eanns & Hlen & Hlabs & Hend); [lia |].
  exists anns. unfold trace_ray_labels. rewrite H.
  cbn [bind fst snd]. unfold create_labels. cbn [fst]. rewrite Hx.
  split; [exact Eanns |]. split; [lia |]. split.
  - intros k angle time Hk. apply (Hlabs k angle time). exact Hk.
  - destruct Hend as (x & y & H1 & H2 & H3); [lia |].
    exists x, y. replace (S (List.length lab) - 1)%nat
      with (List.length lab) in H3 by lia. auto.
Qed.

Lemma labels_created_for_every_vertex_witness :
  exists anns,
    trace_ray_labels example_single (VInt 0) (VInt 50) = Ok anns /\
    List.length anns = 2%nat /\
    (forall k angle time,
       nth_error [(VInt 0, 0.025%R)] k = Some (angle, time) ->
       exists x y,
         nth_error [VInt 0; VFloat 0] k = Some x /\
         nth_error [VInt 50; VFloat 100] k = Some y /\
         nth_error anns k = Some (Annotated x y angle time)) /\
    (exists x y,
       nth_error [VInt 0; VFloat 0] 1 = Some x /\
       nth_error [VInt 50; VFloat 100] 1 = Some y /\
       nth_error anns 1 = Some (Endpoint x y)).
Proof.
  exact (labels_created_for_every_vertex _ _ _ _ _ _ example_single_trace).
Defined.

(** X24 — [create_labels] on its own needs a label for every vertex
    but the last: with two coordinate lists of [n + 2] elements and
    fewer than [n + 1] labels it raises [IndexError]. *)
Theorem labels_missing_raise (xs ys : list value) (lab : list (value * R)) :
  List.length xs = List.length ys ->
  (List.length lab + 1 < List.length xs)%nat ->
  create_labels (xs, ys) lab = Raise IndexError.
Proof.
  intros Hxy Hshort. unfold create_labels. cbn [fst].
  assert (forall len i,
            (i <= List.length lab)%nat ->
            (List.length lab < i + len)%nat ->
            (i + len <= List.length xs)%nat ->
            labels_loop (xs, ys) lab (seq i len) = Raise IndexError) as Hloop.
  { induction len as [| len IH]; intros i Hi Hreach Hin; [lia |].
    cbn [seq labels_loop fst snd].
    assert (Nat.eqb i (List.length xs - 1) = false) as ->
      by (apply Nat.eqb_neq; lia).
    cbn [negb].
    destruct (getitem_in_bounds xs i) as (x & -> & _); [lia |].
    destruct (getitem_in_bounds ys i) as (y & -> & _); [lia |].
    cbn [bind].
    destruct (Nat.eq_dec i (List.length lab)) as [-> | Hne].
    - unfold getitem.
      assert (nth_error lab (List.length lab) = None) as ->
        by (apply nth_error_None; lia).
      reflexivity.
    - destruct (getitem_in_bounds lab i) as (lbl & -> & _); [lia |].
      cbn [bind]. rewrite (IH (S i)); [reflexivity | lia ..]. }
  apply Hloop; lia.
Qed.

Lemma labels_missing_raise_witness :
  create_labels ([VInt 0; VFloat 3; VFloat 7], [VInt 0; VFloat 10; VFloat 20])
    [(VInt 30, 5%R)] = Raise IndexError.
Proof.
  apply labels_missing_raise; cbn; lia.
Defined.

Lemma vertex_count_bound_witness :
  nth_error [VInt 0; VFloat 0] 0 = Some (VInt 0) /\
  nth_error [VInt 50; VFloat 100] 0 = Some (VInt 50) /\
  List.length [VInt 0; VFloat 0] = List.length [VInt 50; VFloat 100] /\
  List.length [(VInt 0, 0.025%R)] = (List.length [VInt 0; VFloat 0] - 1)%nat /\
  (List.length [VInt 0; VFloat 0]
   <= S (List.length (source_suffix example_single (VInt 50))))%nat.
Proof.
  exact (vertex_count_bound _ _ _ _ _ _ example_single_trace).
Defined.

Lemma vertex_count_exact_witness :
  exists xs ys lab,
    trace_ray example_refracting (VInt 30) (VInt 0) = Ok ((xs, ys), lab) /\
    List.length xs = 3%nat /\ List.length lab = 2%nat.
Proof.
  destruct example_refracting_trace as (xs & ys & t1 & t2 & H).
  do 3 eexists. split; [exact H |].
  apply (vertex_count_exact _ _ _ _ _ _ H).
  intros k angle time l1 l2 cur' Hk H1 H2 Href.
  change (source_suffix example_refracting (VInt 0))
    with [[VInt 0; VInt 10; VInt 2]; [VInt 10; VInt 20; VInt 1]] in H1, H2.
  destruct k as [| k]; [| destruct k; discriminate H2].
  cbn in Hk, H1, H2. injection Hk as <- <-.
  injection H1 as <-. injection H2 as <-.
  apply refraction_inv in Href. destruct Href as (_ & _ & Hsb).
  cbv zeta in Hsb. unfold velocity in Hsb. cbn [nth real_of] in Hsb.
  rewrite sin_30 in Hsb.
  replace (1 / 2 * (1 / 2))%R with (1 / 4)%R in Hsb by field.
  destruct Hsb as [(Hlt & _) | (_ & ->)].
  - rewrite Rabs_pos_eq in Hlt; lra.
  - cbn [py_eq]. apply Reqb_neq. apply asin_quarter_not_minus_two.
Defined.

(** * Properties of the tracer over binary64 floats *)

Module Binary64Facts.

Import PrimFloat FloatOps SpecFloat FloatAxioms.
Import Binary64.

Lemma b64_bind_Ok_inv {A B : Type} (c : result A) (k : A -> result B) (b : B) :
  bind c k = Ok b -> exists a, c = Ok a /\ k a = Ok b.
Proof.
  destruct c as [a | e]; simpl; intros H.
  - exists a. split; [reflexivity | exact H].
  - discriminate H.
Qed.

Ltac binv H :=
  let a := fresh "a" in
  let E := fresh "E" in
  apply b64_bind_Ok_inv in H; destruct H as (a & E & H).

Lemma b64_getitem_nth {A : Type} (l : list A) (i : nat) (v : A) :
  getitem l i = Ok v <-> nth_error l i = Some v.
Proof.
  unfold getitem. destruct (nth_error l i) as [w |]; split; intros H;
    try discriminate; injection H as <-; reflexivity.
Qed.

Lemma b64_is_layer_exist_source_eq (l : layer) (d : value) :
  is_layer_exist_source l d = source_in_range l d.
Proof.
  unfold is_layer_exist_source.
  destruct (source_in_range l d) as [[|] | e]; reflexivity.
Qed.

Section Loop.

Variable L : libm.

Lemma b64_emitted_inv (cur : value) (th : float) (l : layer)
  (next : option layer) (s : loop_state) (counter : nat) (c : control) :
  (x_length <~ find_x_length L cur th ;;
   ray_length <~ find_ray_length L th x_length ;;
   speed <~ getitem l 2 ;;
   time <~ count_ray_duration ray_length speed ;;
   let lv := layers_values s ++ [(x_length, th)] in
   let lab := label_values s ++ [(cur, time)] in
   match next with
   | None => Ok (Next (mkState lv lab cur counter))
   | Some l' =>
       lower <~ getitem l 2 ;;
       upper <~ getitem l' 2 ;;
       cur' <~ count_angle L cur lower upper ;;
       if py_eq cur' (VInt (-2)) then Ok (Break (mkState lv lab cur' counter))
       else Ok (Next (mkState lv lab cur' counter))
   end) = Ok c ->
  emitted L cur th l next s counter c.
Proof.
  intros H.
  binv H. rename a into x, E into Hx.
  binv H. rename a into ray, E into Hray.
  binv H. rename a into speed, E into Hspeed.
  binv H. rename a into time, E into Htime.
  exists x, time. split.
  - exists ray, speed. auto.
  - cbv zeta in H |- *. destruct next as [l' |].
    + binv H. rename a into lower, E into Hlower.
      binv H. rename a into upper, E into Hupper.
      binv H. rename a into cur', E into Hcur'.
      exists cur'. split.
      * exists lower, upper. auto.
      * destruct (py_eq cur' (VInt (-2))); congruence.
    + congruence.
Qed.

(** What one iteration does, read off a run of the body that returns:
    the layer is skipped, or it is the source layer, or the ray is
    already being traced. *)
Lemma b64_loop_body_inv (a d : value) (l : layer) (next : option layer)
  (s : loop_state) (c : control) :
  loop_body L a d l next s = Ok c ->
  exists is_exist b t th0,
    is_layer_exist_source l d = Ok is_exist /\
    getitem l 1 = Ok b /\ getitem l 0 = Ok t /\
    get_thickness b t = Ok th0 /\
    ((is_exist = false /\ existing_counter s = 0%nat /\ c = Next s) \/
     (is_exist = true /\ existing_counter s = 0%nat /\
      exists th, get_thickness b d = Ok th /\ emitted L a th l next s 1 c) \/
     (existing_counter s <> 0%nat /\
      emitted L (cur_angle s) th0 l next s (existing_counter s) c)).
Proof.
  unfold loop_body. intros H.
  binv H. rename a0 into is_exist, E into Hexist.
  binv H. rename a0 into b, E into Hb.
  binv H. rename a0 into t, E into Ht.
  binv H. rename a0 into th0, E into Hth0.
  exists is_exist, b, t, th0. repeat (split; [assumption |]).
  destruct (Nat.eqb (existing_counter s) 0) eqn:Ec.
  - apply Nat.eqb_eq in Ec. destruct is_exist; simpl in H.
    + right; left. repeat (split; [auto |]).
      binv H. rename a0 into th. binv E. rewrite Hb in E0.
      injection E0 as <-. exists th. split; [assumption |].
      rewrite Ec in H. apply b64_emitted_inv. exact H.
    + left. rewrite Ec in H. simpl in H. repeat split; congruence.
  - apply Nat.eqb_neq in Ec. right; right. split; [assumption |].
    rewrite andb_false_r in H. cbv zeta in H.
    replace (negb is_exist && Nat.eqb (existing_counter s) 0) with false in H.
    2:{ apply Nat.eqb_neq in Ec. rewrite Ec, andb_false_r. reflexivity. }
    binv H. injection E as <-. apply b64_emitted_inv. exact H.
Qed.

Lemma b64_trace_loop_tracing (a d : value) (rest : list layer) :
  forall (l : layer) (s s' : loop_state),
    existing_counter s <> 0%nat ->
    trace_loop L a d (l :: rest) s = Ok s' ->
    exists b t th lv lab,
      getitem l 1 = Ok b /\ getitem l 0 = Ok t /\
      get_thickness b t = Ok th /\
      traversal L (cur_angle s) th l rest lv lab /\
      layers_values s' = layers_values s ++ lv /\
      label_values s' = label_values s ++ lab.
Proof.
  induction rest as [| l' rest IH]; intros l s s' Hc H;
    cbn [trace_loop] in H; binv H; rename a0 into c;
    apply b64_loop_body_inv in E;
    destruct E as (is_exist & b & t & th0 & _ & Hb & Ht & Hth & Hcase);
    destruct Hcase as [(_ & Hz & _) | [(_ & Hz & _) | (_ & Hem)]];
    try contradiction;
    destruct Hem as (x & time & Hseg & Hem); cbn in Hem;
    exists b, t, th0.
  - subst c. cbn in H. injection H as <-.
    exists [(x, th0)], [(cur_angle s, time)]. cbn.
    repeat (split; [assumption || reflexivity |]).
    split; [| split; reflexivity]. constructor. assumption.
  - destruct Hem as (cur' & Href & ->).
    destruct (py_eq cur' (VInt (-2))) eqn:Eq.
    + injection H as <-.
      exists [(x, th0)], [(cur_angle s, time)]. cbn.
      repeat (split; [assumption || reflexivity |]).
      split; [| split; reflexivity].
      eapply traversal_break; eassumption.
    + apply IH in H; [| exact Hc].
      destruct H as (b' & t' & th' & lv & lab & Hb' & Ht' & Hth' & Htr & Hlv & Hlab).
      cbn in Htr, Hlv, Hlab.
      exists ((x, th0) :: lv), ((cur_angle s, time) :: lab).
      repeat (split; [assumption |]).
      split; [eapply traversal_next; eassumption |].
      rewrite Hlv, Hlab, <- !app_assoc. split; reflexivity.
Qed.

Lemma b64_trace_loop_searching (a d : value) (m : model) :
  forall (s s' : loop_state),
    existing_counter s = 0%nat ->
    trace_loop L a d m s = Ok s' ->
    match source_suffix m d with
    | [] => s' = s
    | l :: rest =>
        exists b th lv lab,
          getitem l 1 = Ok b /\ get_thickness b d = Ok th /\
          traversal L a th l rest lv lab /\
          layers_values s' = layers_values s ++ lv /\
          label_values s' = label_values s ++ lab
    end.
Proof.
  induction m as [| l rest IH]; intros s s' Hc H; cbn [trace_loop] in H.
  - cbn. congruence.
  - binv H. rename a0 into c. apply b64_loop_body_inv in E.
    destruct E as (is_exist & b & t & th0 & Hex & Hb & Ht & Hth & Hcase).
    cbn [source_suffix]. rewrite Hex.
    destruct Hcase as [(-> & _ & ->) | [(-> & _ & th & Hthd & Hem) | (Hz & _)]];
      [| | contradiction].
    + apply IH; assumption.
    + destruct Hem as (x & time & Hseg & Hem). cbn in Hem.
      exists b, th. destruct rest as [| l' rest]; cbn in Hem.
      * subst c. injection H as <-.
        exists [(x, th)], [(a, time)]. cbn.
        repeat (split; [assumption || reflexivity |]).
        split; [| split; reflexivity]. constructor. assumption.
      * destruct Hem as (cur' & Href & ->).
        destruct (py_eq cur' (VInt (-2))) eqn:Eq.
        -- injection H as <-.
           exists [(x, th)], [(a, time)]. cbn.
           repeat (split; [assumption || reflexivity |]).
           split; [| split; reflexivity].
           eapply traversal_break; eassumption.
        -- apply b64_trace_loop_tracing in H; [| cbn; discriminate].
           destruct H as (b' & t' & th' & lv & lab
                          & Hb' & Ht' & Hth' & Htr & Hlv & Hlab).
           cbn in Htr, Hlv, Hlab.
           exists ((x, th) :: lv), ((a, time) :: lab).
           repeat (split; [assumption |]).
           split; [eapply traversal_next; eassumption |].
           rewrite Hlv, Hlab, <- !app_assoc. split; reflexivity.
Qed.

Lemma b64_calculate_shape (m : model) (a d : value)
  (lv : list (float * float)) (lab : list (value * float)) :
  calculate_ray_tracing_values L m a d = Ok (lv, lab) ->
  match source_suffix m d with
  | [] => lv = [] /\ lab = []
  | l :: rest =>
      exists b th,
        getitem l 1 = Ok b /\ get_thickness b d = Ok th /\
        traversal L a th l rest lv lab
  end.
Proof.
  unfold calculate_ray_tracing_values. intros H. binv H.
  injection H as <- <-.
  apply b64_trace_loop_searching in E; [| reflexivity].
  destruct (source_suffix m d) as [| l rest].
  - subst a0. split; reflexivity.
  - destruct E as (b & th & lv & lab & Hb & Hth & Htr & Hlv & Hlab).
    cbn in Hlv, Hlab. subst. exists b, th. auto.
Qed.

End Loop.

(** ** Coordinates *)

Lemma b64_sums_length (ds : list float) :
  forall start, List.length (sums start ds) = List.length ds.
Proof.
  induction ds as [| d rest IH]; intros start; cbn; [| rewrite IH]; reflexivity.
Qed.

Lemma b64_coordinates_loop_shape (lvs : list (float * float)) :
  forall (i : nat) (x y xs ys : list value),
    List.length x = S i -> List.length y = S i ->
    coordinates_loop lvs i x y = Ok (xs, ys) ->
    (lvs = [] /\ xs = x /\ ys = y) \/
    (exists fx fy,
       to_float (nth i x VNone) = Ok fx /\
       to_float (nth i y VNone) = Ok fy /\
       xs = x ++ map VFloat (sums fx (map fst lvs)) /\
       ys = y ++ map VFloat (sums fy (map snd lvs))).
Proof.
  induction lvs as [| [dx dy] rest IH]; intros i x y xs ys Hx Hy H;
    cbn [coordinates_loop] in H.
  - injection H as <- <-. left. auto.
  - right.
    binv H. rename a into xi, E into Hxi.
    binv H. rename a into xl, E into Hxl.
    binv H. rename a into yi, E into Hyi.
    binv H. rename a into yl, E into Hyl.
    apply b64_getitem_nth in Hxi, Hyi.
    apply (nth_error_nth _ _ VNone) in Hxi, Hyi.
    unfold py_float_add in Hxl, Hyl. binv Hxl. binv Hyl.
    rename a into fx, a0 into fy.
    injection Hxl as <-. injection Hyl as <-.
    exists fx, fy. rewrite Hxi, Hyi. split; [assumption |].
    split; [assumption |].
    apply IH in H; [| rewrite length_app; cbn; lia ..].
    cbn [map sums fst snd].
    destruct H as [(-> & -> & ->) | (fx' & fy' & Hfx & Hfy & -> & ->)].
    + cbn. split; reflexivity.
    + rewrite !app_nth2 in Hfx, Hfy by lia.
      rewrite Hx in Hfx. rewrite Hy in Hfy.
      rewrite Nat.sub_diag in Hfx, Hfy. cbn in Hfx, Hfy.
      injection Hfx as <-. injection Hfy as <-.
      rewrite <- !app_assoc. split; reflexivity.
Qed.

Lemma b64_float_of_zero : float_of_int 0 = Ok 0%float.
Proof. reflexivity. Qed.

Lemma b64_create_coordinates_shape (d : value) (lv : list (float * float))
  (xs ys : list value) :
  create_coordinates d lv = Ok (xs, ys) ->
  (lv = [] /\ xs = [VInt 0] /\ ys = [d]) \/
  (exists fd,
     to_float d = Ok fd /\
     xs = VInt 0 :: map VFloat (sums 0 (map fst lv)) /\
     ys = d :: map VFloat (sums fd (map snd lv))).
Proof.
  unfold create_coordinates. intros H.
  apply b64_coordinates_loop_shape in H; [| reflexivity ..].
  destruct H as [H | (fx & fy & Hfx & Hfy & -> & ->)]; [left; exact H |].
  right. cbn [nth] in Hfx, Hfy.
  change (to_float (VInt 0)) with (float_of_int 0) in Hfx.
  rewrite b64_float_of_zero in Hfx.
  injection Hfx as <-. exists fy. auto.
Qed.

Lemma b64_create_coordinates_lengths (d : value) (lv : list (float * float))
  (xs ys : list value) :
  create_coordinates d lv = Ok (xs, ys) ->
  List.length xs = S (List.length lv) /\ List.length ys = S (List.length lv) /\
  nth_error xs 0 = Some (VInt 0) /\ nth_error ys 0 = Some d.
Proof.
  intros H. apply b64_create_coordinates_shape in H.
  destruct H as [(-> & -> & ->) | (fd & _ & -> & ->)]; cbn.
  - auto.
  - rewrite !length_map, !b64_sums_length, !length_map. auto.
Qed.

(** ** The steps of a traversal *)

Section Traversal.

Variable L : libm.

Lemma b64_traversal_head (cur : value) (th : float) (l : layer)
  (rest : list layer) (lv : list (float * float)) (lab : list (value * float)) :
  traversal L cur th l rest lv lab ->
  exists x time lv' lab',
    lv = (x, th) :: lv' /\ lab = (cur, time) :: lab' /\
    segment L cur th l x time.
Proof.
  intros H. destruct H; do 4 eexists;
    (split; [reflexivity | split; [reflexivity | eassumption]]).
Qed.

Lemma b64_traversal_lengths (cur : value) (th : float) (l : layer)
  (rest : list layer) (lv : list (float * float)) (lab : list (value * float)) :
  traversal L cur th l rest lv lab ->
  List.length lv = List.length lab /\
  (1 <= List.length lab <= S (List.length rest))%nat.
Proof.
  induction 1; cbn; lia.
Qed.



(** What happens at the boundary below the [k]-th traversed layer:
    [count_angle] returns some [cur']; if [cur' == -2] the labels end
    with the [k]-th one, otherwise the next label carries [cur']. *)
Lemma b64_traversal_boundary (cur : value) (th : float) (l : layer)
  (rest : list layer) (lv : list (float * float)) (lab : list (value * float)) :
  traversal L cur th l rest lv lab ->
  forall (k : nat) (angle : value) (time : float) (l1 l2 : layer),
    nth_error lab k = Some (angle, time) ->
    nth_error (l :: rest) k = Some l1 ->
    nth_error (l :: rest) (S k) = Some l2 ->
    exists cur',
      refraction L angle l1 l2 cur' /\
      ((py_eq cur' (VInt (-2)) = true /\ List.length lab = S k) \/
       (py_eq cur' (VInt (-2)) = false /\
        exists time', nth_error lab (S k) = Some (cur', time'))).
Proof.
  induction 1 as [cur th l x time Hseg
                 | cur th l l' rest x time cur' Hseg Href Heq
                 | cur th l l' rest x time cur' b t th' lv lab
                     Hseg Href Heq Hb Ht Hth Htr IH];
    intros k angle tm l1 l2 Hk H1 H2.
  - destruct k; discriminate H2.
  - destruct k as [| k]; [| destruct k; discriminate].
    cbn in Hk, H1, H2. injection Hk as <- <-.
    injection H1 as <-. injection H2 as <-.
    exists cur'. split; [assumption |]. left. auto.
  - destruct k as [| k].
    + cbn in Hk, H1, H2. injection Hk as <- <-.
      injection H1 as <-. injection H2 as <-.
      exists cur'. split; [assumption |]. right. split; [assumption |].
      apply b64_traversal_head in Htr.
      destruct Htr as (x' & time' & lv' & lab' & _ & -> & _).
      exists time'. reflexivity.
    + cbn [nth_error] in Hk, H1, H2.
      destruct (IH k angle tm l1 l2 Hk H1 H2) as (c & Hc & Hcase).
      exists c. split; [assumption |].
      destruct Hcase as [(He & Hlen) | (He & Hnext)].
      * left. cbn [List.length]. auto.
      * right. auto.
Qed.

(** A label that is not the first one carries the value [count_angle]
    returned at the boundary above its layer, and that value is not
    equal to [-2]. *)
Lemma b64_traversal_chain (cur : value) (th : float) (l : layer)
  (rest : list layer) (lv : list (float * float)) (lab : list (value * float)) :
  traversal L cur th l rest lv lab ->
  forall (k : nat) (angle2 : value) (time2 : float),
    nth_error lab (S k) = Some (angle2, time2) ->
    exists angle1 time1 l1 l2,
      nth_error lab k = Some (angle1, time1) /\
      nth_error (l :: rest) k = Some l1 /\
      nth_error (l :: rest) (S k) = Some l2 /\
      refraction L angle1 l1 l2 angle2 /\
      py_eq angle2 (VInt (-2)) = false.
Proof.
  induction 1 as [cur th l x time Hseg
                 | cur th l l' rest x time cur' Hseg Href Heq
                 | cur th l l' rest x time cur' b t th' lv lab
                     Hseg Href Heq Hb Ht Hth Htr IH];
    intros k angle2 time2 Hk.
  - destruct k; discriminate Hk.
  - destruct k; discriminate Hk.
  - destruct k as [| k]; cbn [nth_error] in Hk |- *.
    + pose proof (b64_traversal_head _ _ _ _ _ _ Htr)
        as (x' & time' & lv' & lab' & _ & -> & _).
      cbn in Hk. injection Hk as <- <-.
      exists cur, time, l, l'. auto.
    + apply IH in Hk. exact Hk.
Qed.

(** The shape of what [trace_ray] returns. *)
Lemma b64_trace_ray_shape (m : model) (a d : value) (xs ys : list value)
  (lab : list (value * float)) :
  trace_ray L m a d = Ok ((xs, ys), lab) ->
  exists lv,
    calculate_ray_tracing_values L m a d = Ok (lv, lab) /\
    create_coordinates d lv = Ok (xs, ys).
Proof.
  unfold trace_ray. intros H.
  binv H. destruct a0 as [lv lab0]. binv H. destruct a0 as [xs0 ys0].
  cbn [fst snd] in *. injection H as <- <- <-.
  exists lv. auto.
Qed.

Lemma b64_trace_ray_traversal (m : model) (a d : value) (xs ys : list value)
  (lab : list (value * float)) :
  trace_ray L m a d = Ok ((xs, ys), lab) ->
  exists lv,
    create_coordinates d lv = Ok (xs, ys) /\
    List.length lv = List.length lab /\
    match source_suffix m d with
    | [] => lv = [] /\ lab = []
    | l :: rest =>
        exists b th,
          getitem l 1 = Ok b /\ get_thickness b d = Ok th /\
          traversal L a th l rest lv lab
    end.
Proof.
  intros H. apply b64_trace_ray_shape in H.
  destruct H as (lv & Hc & Hxy).
  apply b64_calculate_shape in Hc. exists lv.
  split; [exact Hxy |].
  destruct (source_suffix m d) as [| l rest].
  - destruct Hc as [-> ->]. auto.
  - destruct Hc as (b & th & Hb & Hth & Htr).
    pose proof (b64_traversal_lengths _ _ _ _ _ _ Htr) as [Hlen _].
    split; [exact Hlen |]. exists b, th. auto.
Qed.

Lemma b64_trace_ray_lengths (m : model) (a d : value) (xs ys : list value)
  (lab : list (value * float)) :
  trace_ray L m a d = Ok ((xs, ys), lab) ->
  List.length xs = S (List.length lab) /\
  List.length ys = S (List.length lab) /\
  (List.length lab <= List.length (source_suffix m d))%nat.
Proof.
  intros H. apply b64_trace_ray_traversal in H.
  destruct H as (lv & Hxy & Hlen & Hsuf).
  apply b64_create_coordinates_lengths in Hxy.
  destruct Hxy as (Hx & Hy & _). rewrite Hx, Hy, Hlen.
  repeat split.
  destruct (source_suffix m d) as [| l rest].
  - destruct Hsuf as [_ ->]. cbn. lia.
  - destruct Hsuf as (b & th & _ & _ & Htr).
    apply b64_traversal_lengths in Htr. cbn [List.length]. lia.
Qed.

(** The boundary below the [k]-th emitted layer of a trace. *)
Lemma b64_trace_boundary (m : model) (a d : value) (xs ys : list value)
  (lab : list (value * float)) :
  trace_ray L m a d = Ok ((xs, ys), lab) ->
  forall (k : nat) (angle : value) (time : float) (l1 l2 : layer),
    nth_error lab k = Some (angle, time) ->
    nth_error (source_suffix m d) k = Some l1 ->
    nth_error (source_suffix m d) (S k) = Some l2 ->
    exists cur',
      refraction L angle l1 l2 cur' /\
      ((py_eq cur' (VInt (-2)) = true /\ List.length lab = S k) \/
       (py_eq cur' (VInt (-2)) = false /\
        exists time', nth_error lab (S k) = Some (cur', time'))).
Proof.
  intros H k angle time l1 l2 Hk H1 H2.
  apply b64_trace_ray_traversal in H. destruct H as (lv & _ & _ & Hsuf).
  destruct (source_suffix m d) as [| l rest]; [destruct k; discriminate |].
  destruct Hsuf as (b & th & _ & _ & Htr).
  eapply b64_traversal_boundary; eassumption.
Qed.

(** [count_angle] returns one value. *)
Lemma b64_refraction_unique (cur : value) (l l' : layer) (c1 c2 : value) :
  refraction L cur l l' c1 -> refraction L cur l l' c2 -> c1 = c2.
Proof.
  intros (lo1 & up1 & Hl1 & Hu1 & H1) (lo2 & up2 & Hl2 & Hu2 & H2).
  congruence.
Qed.

End Traversal.

(** ** Binary64 arithmetic at zero *)

Lemma b64_is_zero_spec (f : float) :
  is_zero f = true <-> exists s, Prim2SF f = S754_zero s.
Proof.
  unfold is_zero. rewrite eqb_spec.
  change (Prim2SF zero) with (S754_zero false).
  destruct (Prim2SF f) as [s | s | | s m e]; cbn; split;
    try discriminate; try (intros [s' H]; discriminate H).
  - intros _. exists s. reflexivity.
  - reflexivity.
  - destruct s; discriminate.
  - destruct s; discriminate.
Qed.

Lemma b64_is_finite_spec (f : float) :
  is_finite f = true <->
  match Prim2SF f with
  | S754_zero _ | S754_finite _ _ _ => True
  | _ => False
  end.
Proof.
  unfold is_finite, is_nan, is_infinity. rewrite !eqb_spec, abs_spec.
  change (Prim2SF infinity) with (S754_infinity false).
  destruct (Prim2SF f) as [s | s | | s m e]; cbn; split; try easy.
  - destruct s; discriminate.
  - intros _. rewrite Z.compare_refl.
    change (PosDef.Pos.compare_cont Eq m m) with (Pos.compare m m).
    rewrite Pos.compare_refl. destruct s; reflexivity.
Qed.

Lemma b64_zero_finite (f : float) : is_zero f = true -> is_finite f = true.
Proof.
  rewrite b64_is_zero_spec, b64_is_finite_spec. intros [s ->]. exact I.
Qed.

Lemma b64_mul_zero_l (x y : float) :
  is_zero x = true -> is_finite y = true -> is_zero (x * y) = true.
Proof.
  rewrite !b64_is_zero_spec, b64_is_finite_spec, mul_spec.
  intros [s ->]. unfold SF64mul, SFmul.
  destruct (Prim2SF y) as [sy | sy | | sy m e]; try contradiction;
    intros _; eexists; reflexivity.
Qed.

Lemma b64_add_zero (x y : float) :
  is_zero x = true -> is_zero y = true -> is_zero (x + y) = true.
Proof.
  rewrite !b64_is_zero_spec, add_spec.
  intros [sx ->] [sy ->]. unfold SF64add, SFadd.
  destruct sx, sy; eexists; reflexivity.
Qed.

Lemma b64_add_finite_l (x y : float) :
  is_finite (x + y) = true -> is_finite x = true.
Proof.
  rewrite !b64_is_finite_spec, add_spec. unfold SF64add, SFadd.
  destruct (Prim2SF x) as [sx | sx | | sx mx ex]; try easy.
  destruct (Prim2SF y) as [sy | sy | | sy my ey]; try easy.
  destruct sx, sy; easy.
Qed.


Lemma b64_abs_zero_not_above_one (x : float) :
  is_zero x = true -> (1 <? abs x)%float = false.
Proof.
  rewrite b64_is_zero_spec, ltb_spec, abs_spec. intros [s ->].
  vm_compute. reflexivity.
Qed.

Lemma b64_exact_int_zero (f : float) :
  exact_int f = Some 0%Z <-> is_zero f = true.
Proof.
  rewrite b64_is_zero_spec. unfold exact_int.
  destruct (Prim2SF f) as [s | s | | s m e]; split;
    try discriminate; try (intros [s' H]; discriminate H).
  - intros _. exists s. reflexivity.
  - reflexivity.
  - intros H. exfalso.
    destruct (0 <=? e)%Z eqn:Ee.
    + apply Z.leb_le in Ee.
      assert (0 < Z.pos m * 2 ^ e)%Z as Hpos
        by (apply Z.mul_pos_pos; [lia | apply Z.pow_pos_nonneg; lia]).
      assert ((if s then -1 else 1) * (Z.pos m * 2 ^ e) = 0)%Z as Hz
        by congruence.
      destruct s; lia.
    + apply Z.leb_gt in Ee.
      destruct (Z.pos m mod 2 ^ (- e) =? 0)%Z eqn:Em; [| discriminate].
      apply Z.eqb_eq in Em.
      assert ((if s then -1 else 1) * (Z.pos m / 2 ^ (- e)) = 0)%Z as Hz
        by congruence.
      assert (0 < 2 ^ (- e))%Z as Hpos by (apply Z.pow_pos_nonneg; lia).
      pose proof (Z.div_mod (Z.pos m) (2 ^ (- e))) as Hdm.
      assert (Z.pos m / 2 ^ (- e) = 0)%Z as Hq by (destruct s; lia).
      rewrite Hq, Em in Hdm. lia.
Qed.

Lemma b64_exact_int_of_zero (f : float) :
  is_zero f = true -> exact_int f = Some 0%Z.
Proof. apply b64_exact_int_zero. Qed.

Lemma b64_py_eq_zero (v : value) :
  py_eq v (VInt 0) = true <-> is_zero_value v = true.
Proof.
  destruct v as [z | f | s |]; cbn [py_eq is_zero_value]; try easy.
  rewrite <- b64_exact_int_zero.
  destruct (exact_int f) as [z |]; split; try discriminate.
  - intros H. apply Z.eqb_eq in H. subst. reflexivity.
  - intros H. injection H as ->. reflexivity.
Qed.

Lemma b64_zero_not_minus_two (v : value) :
  is_zero_value v = true -> py_eq v (VInt (-2)) = false.
Proof.
  destruct v as [z | f | s |]; cbn [py_eq is_zero_value]; try easy.
  - intros H. apply Z.eqb_eq in H. subst. reflexivity.
  - intros H. rewrite (b64_exact_int_of_zero _ H). reflexivity.
Qed.

Lemma b64_deg_to_rad_finite : is_finite deg_to_rad = true.
Proof. reflexivity. Qed.

Lemma b64_rad_to_deg_finite : is_finite rad_to_deg = true.
Proof. reflexivity. Qed.

Lemma b64_to_float_zero (v : value) (f : float) :
  is_zero_value v = true -> to_float v = Ok f -> is_zero f = true.
Proof.
  destruct v as [z | g | s |]; cbn [is_zero_value to_float]; try easy.
  - intros H. apply Z.eqb_eq in H. subst z.
    rewrite b64_float_of_zero. intros E. injection E as <-. reflexivity.
  - intros H E. injection E as <-. exact H.
Qed.

Lemma b64_radians_zero (v : value) (r : float) :
  is_zero_value v = true -> radians v = Ok r -> is_zero r = true.
Proof.
  intros Hz H. unfold radians in H. binv H. injection H as <-.
  apply b64_mul_zero_l; [| exact b64_deg_to_rad_finite].
  eapply b64_to_float_zero; eassumption.
Qed.

(** ** Where a trace stops *)

(** C2 — critical angle termination.  Whatever the math library, in
    every trace that is returned: if at the boundary below the [k]-th
    emitted layer the quantity [sin_beta] that [count_angle] computes
    from the angle of the [k]-th label and the two velocities is above
    1 in absolute value, then the label and the vertex of that layer
    are the last ones: [k + 1] labels and [k + 2] vertices. *)
Theorem critical_angle_termination (L : libm) (m : model) (a d : value)
  (xs ys : list value) (lab : list (value * float)) :
  trace_ray L m a d = Ok ((xs, ys), lab) ->
  forall (k : nat) (angle : value) (time : float) (l1 l2 : layer)
         (lower upper : value) (sb : float),
    nth_error lab k = Some (angle, time) ->
    nth_error (source_suffix m d) k = Some l1 ->
    nth_error (source_suffix m d) (S k) = Some l2 ->
    getitem l1 2 = Ok lower ->
    getitem l2 2 = Ok upper ->
    sin_beta L angle lower upper = Ok sb ->
    (1 <? abs sb)%float = true ->
    List.length lab = S k /\
    List.length xs = S (S k) /\ List.length ys = S (S k).
Proof.
  intros H k angle time l1 l2 lower upper sb Hk H1 H2 Hlo Hup Hsb Hcrit.
  assert (List.length lab = S k) as Hlen.
  { destruct (b64_trace_boundary L _ _ _ _ _ _ H k angle time l1 l2 Hk H1 H2)
      as (cur' & Href & Hcase).
    destruct Hcase as [(_ & Hlen) | (Hne & _)]; [exact Hlen |].
    exfalso. destruct Href as (lo & up & Hlo' & Hup' & Hc).
    rewrite Hlo in Hlo'. rewrite Hup in Hup'.
    injection Hlo' as <-. injection Hup' as <-.
    unfold count_angle in Hc. rewrite Hsb in Hc. cbn [bind] in Hc.
    rewrite Hcrit in Hc. injection Hc as <-. discriminate Hne. }
  pose proof (b64_trace_ray_lengths L _ _ _ _ _ _ H) as (Hx & Hy & _).
  rewrite Hx, Hy, Hlen. repeat split.
Qed.

(** C10 — the sentinel.  Whatever the math library, in every trace
    that is returned: if at the boundary below the [k]-th emitted
    layer [count_angle] returns a float (a refraction angle, not the
    mark of a critical angle) that compares equal to [-2], the loop
    stops there exactly as for a critical angle: the [k]-th label is
    the last one and the vertices number [k + 2], although a further
    layer exists. *)
Theorem minus_two_angle_stops_trace (L : libm) (m : model) (a d : value)
  (xs ys : list value) (lab : list (value * float)) :
  trace_ray L m a d = Ok ((xs, ys), lab) ->
  forall (k : nat) (angle : value) (time : float) (l1 l2 : layer)
         (lower upper : value) (r : float),
    nth_error lab k = Some (angle, time) ->
    nth_error (source_suffix m d) k = Some l1 ->
    nth_error (source_suffix m d) (S k) = Some l2 ->
    getitem l1 2 = Ok lower ->
    getitem l2 2 = Ok upper ->
    count_angle L angle lower upper = Ok (VFloat r) ->
    py_eq (VFloat r) (VInt (-2)) = true ->
    List.length lab = S k /\
    List.length xs = S (S k) /\ List.length ys = S (S k) /\
    (S k < List.length (source_suffix m d))%nat.
Proof.
  intros H k angle time l1 l2 lower upper r Hk H1 H2 Hlo Hup Hc Heq.
  assert (List.length lab = S k) as Hlen.
  { destruct (b64_trace_boundary L _ _ _ _ _ _ H k angle time l1 l2 Hk H1 H2)
      as (cur' & Href & Hcase).
    destruct Hcase as [(_ & Hlen) | (Hne & _)]; [exact Hlen |].
    exfalso. destruct Href as (lo & up & Hlo' & Hup' & Hc').
    rewrite Hlo in Hlo'. rewrite Hup in Hup'.
    injection Hlo' as <-. injection Hup' as <-.
    rewrite Hc in Hc'. injection Hc' as <-. congruence. }
  pose proof (b64_trace_ray_lengths L _ _ _ _ _ _ H) as (Hx & Hy & _).
  rewrite Hx, Hy, Hlen. repeat split.
  apply nth_error_Some. congruence.
Qed.

(** ** Depths along a trace *)




(** ** Vertical incidence *)

Lemma b64_sums_zero (ds : list float) :
  Forall (fun f => is_zero f = true) ds ->
  forall start, is_zero start = true ->
  Forall (fun f => is_zero f = true) (sums start ds).
Proof.
  induction 1 as [| dx rest Hdx _ IH]; intros start Hs; cbn [sums].
  - constructor.
  - assert (is_zero (dx + start) = true) as Hz
      by (apply b64_add_zero; assumption).
    constructor; [exact Hz | apply IH; exact Hz].
Qed.

Lemma b64_sums_finite (ds : list float) :
  forall start,
    Forall (fun f => is_finite f = true) (sums start ds) ->
    Forall (fun f => is_finite f = true) ds.
Proof.
  induction ds as [| dx rest IH]; intros start H; cbn [sums] in H.
  - constructor.
  - inversion H as [| ? ? Hh Ht]; subst. constructor.
    + eapply b64_add_finite_l. exact Hh.
    + eapply IH. exact Ht.
Qed.

Lemma b64_finite_ratios_cons (L : libm) (l l' : layer) (rest : list layer) :
  finite_ratios L (l :: l' :: rest) =
  match (lower <~ getitem l 2 ;;
         upper <~ getitem l' 2 ;;
         py_truediv L upper lower) with
  | Ok q => is_finite q
  | Raise _ => false
  end && finite_ratios L (l' :: rest).
Proof. reflexivity. Qed.

Section Vertical.

Variable L : libm.

Hypothesis Hsin : preserves_zero (math_sin L).
Hypothesis Htan : preserves_zero (math_tan L).
Hypothesis Hasin : preserves_zero (math_asin L).

Lemma b64_segment_zero (cur : value) (th : float) (l : layer)
  (x time : float) :
  segment L cur th l x time ->
  is_zero_value cur = true -> is_finite th = true ->
  is_zero x = true.
Proof.
  intros (ray & speed & Hx & _) Hz Hth.
  unfold find_x_length in Hx. binv Hx. rename a into r, E into Hr.
  binv Hx. rename a into t, E into Ht. injection Hx as <-.
  apply b64_mul_zero_l; [| exact Hth].
  eapply Htan; [| exact Ht]. eapply b64_radians_zero; eassumption.
Qed.

Lemma b64_count_angle_ratio (cur lower upper cur' : value) :
  count_angle L cur lower upper = Ok cur' ->
  exists q, py_truediv L upper lower = Ok q.
Proof.
  unfold count_angle, sin_beta. intros H.
  binv H. binv E. binv E. binv E. eexists. eassumption.
Qed.

Lemma b64_count_angle_zero (cur lower upper cur' : value) (q : float) :
  count_angle L cur lower upper = Ok cur' ->
  is_zero_value cur = true ->
  py_truediv L upper lower = Ok q -> is_finite q = true ->
  is_zero_value cur' = true.
Proof.
  unfold count_angle, sin_beta. intros H Hz Hq Hfin.
  binv H. rename a into sb, E into Hsb.
  binv Hsb. rename a into r, E into Hr.
  binv Hsb. rename a into s, E into Hs.
  rewrite Hq in Hsb. cbn [bind] in Hsb. injection Hsb as <-.
  assert (is_zero (s * q) = true) as Hz'.
  { apply b64_mul_zero_l; [| exact Hfin].
    eapply Hsin; [| exact Hs]. eapply b64_radians_zero; eassumption. }
  rewrite (b64_abs_zero_not_above_one _ Hz') in H.
  binv H. rename a into as_, E into Has. injection H as <-.
  cbn [is_zero_value]. unfold degrees.
  apply b64_mul_zero_l; [| exact b64_rad_to_deg_finite].
  eapply Hasin; eassumption.
Qed.

Lemma b64_refraction_zero (cur : value) (l l' : layer) (rest : list layer)
  (cur' : value) :
  refraction L cur l l' cur' ->
  is_zero_value cur = true ->
  finite_ratios L (l :: l' :: rest) = true ->
  is_zero_value cur' = true /\ finite_ratios L (l' :: rest) = true.
Proof.
  intros (lower & upper & Hlo & Hup & Hc) Hz Hfin.
  destruct (b64_count_angle_ratio _ _ _ _ Hc) as (q & Hq).
  rewrite b64_finite_ratios_cons, Hlo in Hfin. cbn [bind] in Hfin.
  rewrite Hup in Hfin. cbn [bind] in Hfin. rewrite Hq in Hfin.
  apply andb_true_iff in Hfin. destruct Hfin as [Hfq Hrest].
  split; [| exact Hrest].
  eapply b64_count_angle_zero; eassumption.
Qed.

Lemma b64_traversal_zero (cur : value) (th : float) (l : layer)
  (rest : list layer) (lv : list (float * float)) (lab : list (value * float)) :
  traversal L cur th l rest lv lab ->
  is_zero_value cur = true ->
  Forall (fun f => is_finite f = true) (map snd lv) ->
  finite_ratios L (l :: rest) = true ->
  List.length lab = S (List.length rest) /\
  Forall (fun f => is_zero f = true) (map fst lv) /\
  Forall (fun p => is_zero_value (fst p) = true) lab.
Proof.
  induction 1 as [cur th l x time Hseg
                 | cur th l l' rest x time cur' Hseg Href Heq
                 | cur th l l' rest x time cur' b t th' lv lab
                     Hseg Href Heq Hb Ht Hth Htr IH];
    intros Hz Hfin Hrat; cbn [map fst snd] in Hfin;
    inversion Hfin as [| ? ? Hth0 Hfin']; subst;
    pose proof (b64_segment_zero _ _ _ _ _ Hseg Hz Hth0) as Hx.
  - cbn [List.length map fst]. split; [reflexivity |].
    split; constructor; try assumption; constructor.
  - destruct (b64_refraction_zero _ _ _ _ _ Href Hz Hrat) as [Hz' _].
    apply b64_zero_not_minus_two in Hz'. congruence.
  - destruct (b64_refraction_zero _ _ _ _ _ Href Hz Hrat) as [Hz' Hrat'].
    destruct (IH Hz' Hfin' Hrat') as (Hlen & Hxs & Hl).
    cbn [List.length map fst]. rewrite Hlen.
    split; [reflexivity |].
    split; constructor; assumption.
Qed.

End Vertical.

(** C8 — vertical incidence.  With a math library whose [sin], [tan]
    and [asin] map a zero to a zero: in every returned trace with
    incidence angle equal to 0, finite depths, and a finite velocity
    quotient at every boundary from the source layer on, every layer
    from the source layer to the last one is emitted, every
    x-coordinate equals 0 and the angle of every label equals 0. *)
Theorem zero_incidence_straight_down (L : libm) (m : model) (a d : value)
  (xs ys : list value) (lab : list (value * float)) :
  preserves_zero (math_sin L) ->
  preserves_zero (math_tan L) ->
  preserves_zero (math_asin L) ->
  py_eq a (VInt 0) = true ->
  trace_ray L m a d = Ok ((xs, ys), lab) ->
  forallb finite_value ys = true ->
  finite_ratios L (source_suffix m d) = true ->
  List.length lab = List.length (source_suffix m d) /\
  List.length xs = S (List.length (source_suffix m d)) /\
  List.length ys = S (List.length (source_suffix m d)) /\
  Forall (fun x => py_eq x (VInt 0) = true) xs /\
  Forall (fun p => py_eq (fst p) (VInt 0) = true) lab.
Proof.
  intros Hsin Htan Hasin Ha H Hfin Hrat.
  apply b64_py_eq_zero in Ha.
  pose proof (b64_trace_ray_lengths L _ _ _ _ _ _ H) as (Hx & Hy & _).
  apply b64_trace_ray_traversal in H.
  destruct H as (lv & Hxy & _ & Hsuf).
  apply b64_create_coordinates_shape in Hxy.
  assert (List.length lab = List.length (source_suffix m d) /\
          Forall (fun f => is_zero f = true) (map fst lv) /\
          Forall (fun p => is_zero_value (fst p) = true) lab)
    as (Hlen & Hdx & Hlab).
  { destruct (source_suffix m d) as [| l rest].
    - destruct Hsuf as [-> ->]. cbn. auto.
    - destruct Hsuf as (b & th & _ & _ & Htr).
      apply (b64_traversal_zero L Hsin Htan Hasin _ _ _ _ _ _ Htr Ha);
        [| exact Hrat].
      destruct Hxy as [(-> & _) | (fd & _ & _ & ->)]; [constructor |].
      cbn [forallb finite_value] in Hfin.
      apply andb_true_iff in Hfin. destruct Hfin as [_ Hfin].
      rewrite forallb_forall in Hfin.
      apply (b64_sums_finite _ fd). apply Forall_forall.
      intros f Hf. apply (Hfin (VFloat f)). apply in_map. exact Hf. }
  rewrite Hx, Hy, Hlen. repeat (split; [reflexivity |]).
  split.
  - destruct Hxy as [(_ & -> & _) | (fd & _ & -> & _)].
    + constructor; [reflexivity | constructor].
    + constructor; [reflexivity |].
      apply Forall_map.
      eapply Forall_impl; [| apply (b64_sums_zero _ Hdx 0%float eq_refl)].
      intros f Hf. apply b64_py_eq_zero. exact Hf.
  - eapply Forall_impl; [| exact Hlab].
    intros p Hp. apply b64_py_eq_zero. exact Hp.
Qed.

(** ** Further properties of the tracer *)

Lemma b64_trace_loop_skip (L : libm) (a d : value) (m : model) :
  forall (s s' : loop_state),
    existing_counter s = 0%nat ->
    trace_loop L a d m s = Ok s' ->
    trace_loop L a d (source_suffix m d) s = Ok s' /\
    exists skipped,
      m = skipped ++ source_suffix m d /\
      Forall (fun l => is_layer_exist_source l d = Ok false) skipped /\
      match source_suffix m d with
      | [] => True
      | l :: _ => is_layer_exist_source l d = Ok true
      end.
Proof.
  induction m as [| l rest IH]; intros s s' Hc H.
  - cbn. split; [exact H |]. exists []. auto.
  - pose proof H as H0. cbn [trace_loop] in H. binv H. rename a0 into c.
    apply b64_loop_body_inv in E.
    destruct E as (is_exist & b & t & th0 & Hex & _ & _ & _ & Hcase).
    cbn [source_suffix]. rewrite Hex.
    destruct Hcase as [(-> & _ & ->) | [(-> & _ & _) | (Hz & _)]];
      [| | contradiction].
    + destruct (IH s s' Hc H) as (Hloop & skipped & Hm & Hsk & Hhd).
      split; [exact Hloop |]. exists (l :: skipped).
      split; [cbn; f_equal; exact Hm |].
      split; [constructor; assumption | exact Hhd].
    + split; [exact H0 |]. exists []. auto.
Qed.

(** X6 — the tracer starts at the first layer in which
    [is_layer_exist_source] holds: the trace of a model is the trace
    of its layers from that layer on, and for every layer before it
    [is_layer_exist_source] returned [False]. *)
Theorem trace_starts_at_source_layer (L : libm) (m : model) (a d : value)
  (r : trace_result) :
  trace_ray L m a d = Ok r ->
  trace_ray L (source_suffix m d) a d = Ok r /\
  exists skipped,
    m = skipped ++ source_suffix m d /\
    Forall (fun l => is_layer_exist_source l d = Ok false) skipped /\
    match source_suffix m d with
    | [] => True
    | l :: _ => is_layer_exist_source l d = Ok true
    end.
Proof.
  unfold trace_ray, calculate_ray_tracing_values. intros H.
  binv H. rename a0 into vals, E into Hvals.
  binv Hvals. rename a0 into s, E into Hloop.
  apply b64_trace_loop_skip in Hloop; [| reflexivity].
  destruct Hloop as (Hloop & Hsk). split; [| exact Hsk].
  rewrite Hloop. cbn [bind]. injection Hvals as <-. exact H.
Qed.

Lemma b64_no_source_suffix (m : model) (d : value) :
  is_source_occur_in_seismic_model m d = Ok false -> source_suffix m d = [].
Proof.
  induction m as [| l rest IH]; cbn [is_source_occur_in_seismic_model
                                      source_suffix]; intros H.
  - reflexivity.
  - binv H. rewrite b64_is_layer_exist_source_eq, E.
    destruct a; [discriminate | apply IH; exact H].
Qed.

(** X17 — when [is_source_occur_in_seismic_model] answers [False], a
    trace that is returned consists of the single vertex
    [(0, source_depth)] and has no label. *)
Theorem no_source_layer_single_vertex (L : libm) (m : model) (a d : value)
  (r : trace_result) :
  is_source_occur_in_seismic_model m d = Ok false ->
  trace_ray L m a d = Ok r ->
  r = (([VInt 0], [d]), []).
Proof.
  intros Hno H. destruct r as [[xs ys] lab].
  apply b64_trace_ray_traversal in H. destruct H as (lv & Hxy & _ & Hsuf).
  rewrite (b64_no_source_suffix _ _ Hno) in Hsuf.
  destruct Hsuf as [-> ->]. cbn in Hxy. congruence.
Qed.

(** X21 — [create_coordinates]: without entries the lists are the
    starting vertex alone; with at least one entry, a source depth that
    cannot be converted to a float raises the exception of the
    conversion ([TypeError] for a string or [None], [OverflowError] for
    an integer beyond the floats); and when it returns, each list has
    one element more than there are entries and starts with [0] and
    the source depth. *)
Theorem create_coordinates_behaviour (d : value) :
  create_coordinates d [] = Ok ([VInt 0], [d]) /\
  (forall (e : float * float) (lv : list (float * float)) (exc : exn),
     to_float d = Raise exc -> create_coordinates d (e :: lv) = Raise exc) /\
  (forall (lv : list (float * float)) (xs ys : list value),
     create_coordinates d lv = Ok (xs, ys) ->
     List.length xs = S (List.length lv) /\
     List.length ys = S (List.length lv) /\
     nth_error xs 0 = Some (VInt 0) /\ nth_error ys 0 = Some d).
Proof.
  split; [reflexivity |]. split.
  - intros [dx dy] lv exc Hd. unfold create_coordinates.
    cbn [coordinates_loop]. unfold getitem. cbn [nth_error bind].
    unfold py_float_add.
    change (to_float (VInt 0)) with (float_of_int 0).
    rewrite b64_float_of_zero. cbn [bind]. rewrite Hd. reflexivity.
  - intros lv xs ys H. apply b64_create_coordinates_lengths. exact H.
Qed.

(** X29 — the angles of a trace: the first label carries the angle of
    incidence, and every later label the value that [count_angle]
    returned for the angle of the label before it and the velocities
    of the two layers, a value not equal to [-2]. *)
Theorem refraction_chain (L : libm) (m : model) (a d : value)
  (xs ys : list value) (lab : list (value * float)) :
  trace_ray L m a d = Ok ((xs, ys), lab) ->
  (forall (angle : value) (time : float),
     nth_error lab 0 = Some (angle, time) -> angle = a) /\
  (forall (k : nat) (angle2 : value) (time2 : float),
     nth_error lab (S k) = Some (angle2, time2) ->
     exists (angle1 : value) (time1 : float) (l1 l2 : layer)
            (lower upper : value),
       nth_error lab k = Some (angle1, time1) /\
       nth_error (source_suffix m d) k = Some l1 /\
       nth_error (source_suffix m d) (S k) = Some l2 /\
       getitem l1 2 = Ok lower /\ getitem l2 2 = Ok upper /\
       count_angle L angle1 lower upper = Ok angle2 /\
       py_eq angle2 (VInt (-2)) = false).
Proof.
  intros H. apply b64_trace_ray_traversal in H.
  destruct H as (lv & _ & _ & Hsuf).
  destruct (source_suffix m d) as [| l rest].
  { destruct Hsuf as [_ ->]. split.
    - intros angle time Hk. discriminate Hk.
    - intros k angle2 time2 Hk. destruct k; discriminate Hk. }
  destruct Hsuf as (b & th & _ & _ & Htr). split.
  - intros angle time Hk.
    apply b64_traversal_head in Htr.
    destruct Htr as (x & time' & lv' & lab' & _ & -> & _).
    cbn in Hk. congruence.
  - intros k angle2 time2 Hk.
    destruct (b64_traversal_chain L _ _ _ _ _ _ Htr k angle2 time2 Hk)
      as (angle1 & time1 & l1 & l2 & Hk1 & H1 & H2 & Href & Hne).
    destruct Href as (lower & upper & Hlo & Hup & Hc).
    exists angle1, time1, l1, l2, lower, upper. auto 10.
Qed.

(** X30 — the thickness of a layer is computed before the layer is
    skipped: a first layer whose integer bounds differ by more than
    the floats reach ends the trace with [OverflowError], wherever the
    source is. *)
Theorem out_of_range_bound_aborts (L : libm) (t b : Z) (v : value)
  (rest : list layer) (a d : value) :
  float_of_int (b - t) = Raise OverflowError ->
  trace_ray L ([VInt t; VInt b; v] :: rest) a d = Raise OverflowError.
Proof.
  intros H. unfold trace_ray, calculate_ray_tracing_values.
  cbn [trace_loop]. unfold loop_body, is_layer_exist_source, source_in_range.
  unfold getitem. cbn [nth_error bind as_index].
  destruct (py_in_range d t b); cbn [negb bind];
    unfold get_thickness, py_sub, fabs; cbn [bind to_float];
    rewrite H; reflexivity.
Qed.



(** ** The theorems at work *)

Lemma b64_example_critical_run :
  trace_ray small_angle example_critical (VInt 30) (VInt 5) =
    Ok example_critical_trace.
Proof. vm_compute. reflexivity. Qed.

Lemma b64_example_sentinel_run :
  trace_ray small_angle example_equal_speed (VInt (-2)) (VInt 5) =
    Ok example_sentinel_trace.
Proof. vm_compute. reflexivity. Qed.

Lemma b64_example_vertical_run :
  trace_ray small_angle example_equal_speed (VInt 0) (VInt 5) =
    Ok example_vertical_trace.
Proof. vm_compute. reflexivity. Qed.

Lemma b64_example_refracted_run :
  trace_ray small_angle example_equal_speed (VInt 10) (VInt 5) =
    Ok example_refracted_trace.
Proof. vm_compute. reflexivity. Qed.


Lemma b64_small_angle_preserves_zero :
  preserves_zero (math_sin small_angle) /\
  preserves_zero (math_tan small_angle) /\
  preserves_zero (math_asin small_angle).
Proof.
  repeat split; intros x y Hx Hy; injection Hy as <-; exact Hx.
Qed.

Lemma critical_angle_witness :
  trace_ray small_angle example_critical (VInt 30) (VInt 5) =
    Ok example_critical_trace /\
  sin_beta small_angle (VInt 30) (VInt 1) (VInt 3) =
    Ok 0x1.921fb54442d18p+0%float /\
  (1 <? abs 0x1.921fb54442d18p+0)%float = true /\
  List.length (snd example_critical_trace) = 1%nat /\
  List.length (fst (fst example_critical_trace)) = 2%nat /\
  List.length (snd (fst example_critical_trace)) = 2%nat.
Proof.
  split; [exact b64_example_critical_run |].
  split; [vm_compute; reflexivity |].
  split; [vm_compute; reflexivity |].
  apply (critical_angle_termination small_angle example_critical
           (VInt 30) (VInt 5) _ _ _ b64_example_critical_run
           0%nat (VInt 30) 0x1.6936122597cf1p+2%float
           [VInt 0; VInt 10; VInt 1] [VInt 10; VInt 20; VInt 3]
           (VInt 1) (VInt 3) 0x1.921fb54442d18p+0%float);
    vm_compute; reflexivity.
Defined.

Lemma minus_two_angle_witness :
  trace_ray small_angle example_equal_speed (VInt (-2)) (VInt 5) =
    Ok example_sentinel_trace /\
  count_angle small_angle (VInt (-2)) (VInt 1) (VInt 1) = Ok (VFloat (-2)) /\
  py_eq (VFloat (-2)) (VInt (-2)) = true /\
  List.length (snd example_sentinel_trace) = 1%nat /\
  List.length (fst (fst example_sentinel_trace)) = 2%nat /\
  List.length (snd (fst example_sentinel_trace)) = 2%nat /\
  (1 < List.length (source_suffix example_equal_speed (VInt 5)))%nat.
Proof.
  split; [exact b64_example_sentinel_run |].
  split; [vm_compute; reflexivity |].
  split; [vm_compute; reflexivity |].
  apply (minus_two_angle_stops_trace small_angle example_equal_speed
           (VInt (-2)) (VInt 5) _ _ _ b64_example_sentinel_run
           0%nat (VInt (-2)) 0x1.4031e4b0e6e3fp+2%float
           [VInt 0; VInt 10; VInt 1] [VInt 10; VInt 20; VInt 1]
           (VInt 1) (VInt 1) (-2)%float);
    vm_compute; reflexivity.
Defined.

Lemma zero_incidence_witness :
  trace_ray small_angle example_equal_speed (VInt 0) (VInt 5) =
    Ok example_vertical_trace /\
  List.length (snd example_vertical_trace) =
    List.length (source_suffix example_equal_speed (VInt 5)) /\
  List.length (fst (fst example_vertical_trace)) =
    S (List.length (source_suffix example_equal_speed (VInt 5))) /\
  List.length (snd (fst example_vertical_trace)) =
    S (List.length (source_suffix example_equal_speed (VInt 5))) /\
  Forall (fun x => py_eq x (VInt 0) = true) (fst (fst example_vertical_trace)) /\
  Forall (fun p => py_eq (fst p) (VInt 0) = true) (snd example_vertical_trace).
Proof.
  split; [exact b64_example_vertical_run |].
  destruct b64_small_angle_preserves_zero as (Hsin & Htan & Hasin).
  apply (zero_incidence_straight_down small_angle example_equal_speed
           (VInt 0) (VInt 5) _ _ _ Hsin Htan Hasin eq_refl
           b64_example_vertical_run);
    vm_compute; reflexivity.
Defined.


Lemma trace_starts_at_source_layer_witness :
  trace_ray small_angle example_equal_speed (VInt 10) (VInt 15) =
    Ok (([VInt 0; VFloat 0x1.becde5da115a9p-1], [VInt 15; VFloat 20]),
        [(VInt 10, 0x1.44d65a64a0bdfp+2%float)]) /\
  trace_ray small_angle (source_suffix example_equal_speed (VInt 15))
    (VInt 10) (VInt 15) =
    Ok (([VInt 0; VFloat 0x1.becde5da115a9p-1], [VInt 15; VFloat 20]),
        [(VInt 10, 0x1.44d65a64a0bdfp+2%float)]) /\
  exists skipped,
    example_equal_speed =
      skipped ++ source_suffix example_equal_speed (VInt 15) /\
    Forall (fun l => is_layer_exist_source l (VInt 15) = Ok false) skipped /\
    match source_suffix example_equal_speed (VInt 15) with
    | [] => True
    | l :: _ => is_layer_exist_source l (VInt 15) = Ok true
    end.
Proof.
  assert (trace_ray small_angle example_equal_speed (VInt 10) (VInt 15) =
            Ok (([VInt 0; VFloat 0x1.becde5da115a9p-1], [VInt 15; VFloat 20]),
                [(VInt 10, 0x1.44d65a64a0bdfp+2%float)])) as H
    by (vm_compute; reflexivity).
  split; [exact H |].
  exact (trace_starts_at_source_layer small_angle _ _ _ _ H).
Defined.

Lemma no_source_layer_single_vertex_witness :
  is_source_occur_in_seismic_model example_equal_speed (VInt 25) = Ok false /\
  trace_ray small_angle example_equal_speed (VInt 10) (VInt 25) =
    Ok (([VInt 0], [VInt 25]), []) /\
  (([VInt 0], [VInt 25]), []) =
    (([VInt 0], [VInt 25]), @nil (value * float)).
Proof.
  assert (trace_ray small_angle example_equal_speed (VInt 10) (VInt 25) =
            Ok (([VInt 0], [VInt 25]), [])) as H
    by (vm_compute; reflexivity).
  split; [vm_compute; reflexivity |]. split; [exact H |].
  apply (no_source_layer_single_vertex small_angle example_equal_speed
           (VInt 10) (VInt 25) _ eq_refl H).
Defined.

Lemma refraction_chain_witness :
  trace_ray small_angle example_equal_speed (VInt 10) (VInt 5) =
    Ok example_refracted_trace /\
  exists (angle1 : value) (time1 : float) (l1 l2 : layer) (lower upper : value),
    nth_error (snd example_refracted_trace) 0 = Some (angle1, time1) /\
    nth_error (source_suffix example_equal_speed (VInt 5)) 0 = Some l1 /\
    nth_error (source_suffix example_equal_speed (VInt 5)) 1 = Some l2 /\
    getitem l1 2 = Ok lower /\ getitem l2 2 = Ok upper /\
    count_angle small_angle angle1 lower upper = Ok (VFloat 10) /\
    py_eq (VFloat 10) (VInt (-2)) = false.
Proof.
  split; [exact b64_example_refracted_run |].
  destruct (refraction_chain small_angle _ _ _ _ _ _ b64_example_refracted_run)
    as [_ Hchain].
  exact (Hchain 0%nat (VFloat 10) 0x1.44d65a64a0bdfp+3%float eq_refl).
Defined.

Lemma out_of_range_bound_aborts_witness :
  float_of_int (10 ^ 400 - 0) = Raise OverflowError /\
  trace_ray small_angle example_deep (VInt 0) (VInt 5) = Raise OverflowError.
Proof.
  assert (float_of_int (10 ^ 400 - 0) = Raise OverflowError) as H
    by (vm_compute; reflexivity).
  split; [exact H |].
  exact (out_of_range_bound_aborts small_angle 0 (10 ^ 400) (VInt 1) []
           (VInt 0) (VInt 5) H).
Defined.


(** ** Where the floats end *)

(** The model [example_deep] passes the checks on the layers, the
    velocities and the source, and for the incidence angle 0 the trace
    ends with [OverflowError] before any call of the math library. *)
Lemma zero_incidence_overflow :
  is_layer_data_count_correct example_deep = true /\
  is_speed_data_correct example_deep = Ok true /\
  is_source_occur_in_seismic_model example_deep (VInt 5) = Ok true /\
  (fun L : libm => trace_ray L example_deep (VInt 0) (VInt 5)) =
    (fun _ : libm => Raise OverflowError).
Proof.
  split; [reflexivity |]. split; [reflexivity |].
  split; vm_compute; reflexivity.
Qed.


End Binary64Facts.

(** ** A critical boundary below a layer beyond the floats *)

(** The model [Binary64.example_deep_critical] passes the checks on
    the layers, the velocities and the source; at its one boundary
    [sin(30 degrees) * 3 / 1] is above 1; and the trace for 30 degrees
    from depth 5 ends with [OverflowError] in the first layer, whatever
    the math library: no vertex and no label is emitted. *)
Lemma critical_boundary_overflow :
  Binary64.is_layer_data_count_correct Binary64.example_deep_critical = true /\
  Binary64.is_speed_data_correct Binary64.example_deep_critical =
    Binary64.Ok true /\
  Binary64.is_source_occur_in_seismic_model Binary64.example_deep_critical
    (Binary64.VInt 5) = Binary64.Ok true /\
  (1 < Rabs (sin_beta_at (VInt 30)
               [VInt 0; VInt (10 ^ 400); VInt 1]
               [VInt (10 ^ 400); VInt (10 ^ 400 + 10); VInt 3]))%R /\
  (fun L : Binary64.libm =>
     Binary64.trace_ray L Binary64.example_deep_critical
       (Binary64.VInt 30) (Binary64.VInt 5)) =
    (fun _ : Binary64.libm => Binary64.Raise Binary64.OverflowError).
Proof.
  split; [reflexivity |]. split; [reflexivity |].
  split; [vm_compute; reflexivity |]. split.
  - unfold sin_beta_at, sin_deg, velocity. cbn [nth real_of].
    rewrite sin_30.
    replace (1 / 2 * (3 / 1))%R with (3 / 2)%R by field.
    rewrite Rabs_pos_eq; lra.
  - vm_compute. reflexivity.
Qed.
